(** * Session bridge of the Gladia real-time demo (app.py, cli.py)

    A shallow embedding of the Socket.IO handlers and the WebSocket callbacks
    of [app.py], and of the frame handler of [cli.py].  Python values are an
    inductive type, the module-level table [active_sessions] is a finite map,
    every [WebSocketApp] ever created lives in a store indexed by creation
    order, and handlers are computations in a state-and-exception monad so
    that [try]/[except] blocks keep their shape. *)

From stdpp Require Import base option list strings gmap pretty.
From Stdlib Require Import ZArith.
From Stdlib.Strings Require Import Ascii Byte.

Set Warnings "-register-all".
Local Open Scope Z_scope.

(** ** Python values

    What [json.loads] and the Socket.IO layer hand to the handlers.  A float
    is kept as the decimal literal it was read from ([m] times ten to the
    [e]); the bridge only passes floats through, so rounding to binary64 is
    not modelled.  A [str] is kept as its UTF-8 bytes.  A dict is an
    association list read by [dict_lookup]. *)

Inductive value :=
  | VNone
  | VBool (b : bool)
  | VInt (n : Z)
  | VFloat (m e : Z)
  | VStr (s : string)
  | VList (l : list value)
  | VDict (kvs : list (string * value)).

Abbreviation bytes := (list byte).

Fixpoint dict_lookup (k : string) (kvs : list (string * value)) : option value :=
  match kvs with
  | [] => None
  | (k', v) :: rest => if String.eqb k k' then Some v else dict_lookup k rest
  end.

(** [d[k] = v] on a dict: replaces the binding in place or appends it. *)
Fixpoint dict_set (k : string) (v : value) (kvs : list (string * value))
  : list (string * value) :=
  match kvs with
  | [] => [(k, v)]
  | (k', v') :: rest =>
      if String.eqb k k' then (k, v) :: rest else (k', v') :: dict_set k v rest
  end.

(** Python truthiness, as used by [if text:], [if ws:], [if languages]. *)
Definition truthy (v : value) : bool :=
  match v with
  | VNone => false
  | VBool b => b
  | VInt n => negb (Z.eqb n 0)
  | VFloat m _ => negb (Z.eqb m 0)
  | VStr s => negb (String.eqb s "")
  | VList l => match l with [] => false | _ => true end
  | VDict kvs => match kvs with [] => false | _ => true end
  end.

(** [v == 'literal'] for a string literal. *)
Definition eq_str (v : value) (s : string) : bool :=
  match v with
  | VStr s' => String.eqb s' s
  | _ => false
  end.

(** [v == 0]: Python compares numbers across int, float and bool. *)
Definition eq_zero (v : value) : bool :=
  match v with
  | VInt n => Z.eqb n 0
  | VFloat m _ => Z.eqb m 0
  | VBool b => negb b
  | _ => false
  end.

(** [type(v).__name__], which Python puts in its error messages. *)
Definition type_name (v : value) : string :=
  match v with
  | VNone => "NoneType"
  | VBool _ => "bool"
  | VInt _ => "int"
  | VFloat _ _ => "float"
  | VStr _ => "str"
  | VList _ => "list"
  | VDict _ => "dict"
  end.

(** ** Exceptions *)

Inductive exn :=
  | AttributeError (ty attr : string)
  | KeyError (key : string)
  | TypeError (msg : string)
  | JSONDecodeError (msg : string)
  | HTTPError (status_code : Z) (text : string)
  | Exception (msg : string).

Definition is_JSONDecodeError (e : exn) : bool :=
  match e with JSONDecodeError _ => true | _ => false end.
Definition is_KeyError (e : exn) : bool :=
  match e with KeyError _ => true | _ => false end.

(** [str(e)].  The text of an [HTTPError] is the one [requests] builds
    ("401 Client Error: ... for url: ..."); it is only ever printed, so it is
    abbreviated to the status code here. *)
Definition str_exn (e : exn) : string :=
  match e with
  | AttributeError ty attr =>
      "'" +:+ ty +:+ "' object has no attribute '" +:+ attr +:+ "'"
  | KeyError k => "'" +:+ k +:+ "'"
  | TypeError msg => msg
  | JSONDecodeError msg => msg
  | HTTPError c _ => pretty c
  | Exception msg => msg
  end.

(** ** Library functions

    [json.loads] and [base64.b64decode] belong to the Python standard
    library and [WebSocketApp.run_forever] to websocket-client, not to this
    repository: the handlers are defined and verified over any such
    library.  [refuses url] is the text of the exception [run_forever]
    raises for a URL it does not take (a missing one, say) before it
    connects, if it raises one.  Reference functions to run the handlers on
    concrete frames are given further down. *)

Class PyLib := {
  loads : string → exn + value;
  b64decode : string → exn + bytes;
  refuses : value → option string
}.

(** ** The process state

    [active_sessions] maps a client id to a dict with the optional keys
    ['config'] and ['ws'].  A [WebSocketApp] is referred to by its index in
    [sockets]; it remembers the [client_sid] its callbacks closed over. *)

Record SessionConfig := {
  speaker_name : value;
  partial_results : value;
  languages : value;
  code_switching : value;
  custom_vocabulary : value
}.

Record session := {
  config : option SessionConfig;
  ws : option nat
}.

Inductive connection := Connecting | Connected | Closed.

Record WebSocketApp := {
  ws_url : value;
  ws_client : string;          (* [client_sid] of the enclosing call *)
  sock : connection;           (* [ws.sock and ws.sock.connected] is [Connected] *)
  running : bool;              (* [run_forever] has not delivered [on_close] yet *)
  sent : list bytes            (* binary frames written upstream, oldest first *)
}.

Definition with_sock (c : connection) (a : WebSocketApp) : WebSocketApp :=
  {| ws_url := ws_url a; ws_client := ws_client a; sock := c;
     running := running a; sent := sent a |}.
Definition with_running (b : bool) (a : WebSocketApp) : WebSocketApp :=
  {| ws_url := ws_url a; ws_client := ws_client a; sock := sock a;
     running := b; sent := sent a |}.
Definition with_sent (frames : list bytes) (a : WebSocketApp) : WebSocketApp :=
  {| ws_url := ws_url a; ws_client := ws_client a; sock := sock a;
     running := running a; sent := frames |}.

(** Arguments of the thread started by [handle_start_stream]. *)
Record thread := {
  t_client_sid : string;
  t_partial_results : value;
  t_languages : value;
  t_code_switching : value;
  t_custom_vocabulary : value
}.

(** One Socket.IO event sent to a client. *)
Record emission := {
  ev_name : string;
  ev_data : value;
  ev_room : string
}.

(** One printed line: the pieces of its f-string. *)
Inductive piece :=
  | Lit (s : string)
  | Val (v : value)            (* [{v}] *)
  | Fix2 (v : value)           (* [{v:.2f}] *)
  | Err (e : exn).             (* [{e}] *)

Record world := {
  active_sessions : gmap string session;
  sockets : list WebSocketApp;
  threads : list thread;       (* started, [requests.post] not yet answered *)
  posted : list value;         (* payloads POSTed to [GLADIA_API_URL] *)
  emitted : list emission;     (* oldest first *)
  stdout : list (list piece)
}.

Definition initial : world :=
  {| active_sessions := ∅; sockets := []; threads := []; posted := [];
     emitted := []; stdout := [] |}.

Definition set_sessions (f : gmap string session → gmap string session) (w : world) : world :=
  {| active_sessions := f (active_sessions w); sockets := sockets w;
     threads := threads w; posted := posted w; emitted := emitted w;
     stdout := stdout w |}.
Definition set_sockets (f : list WebSocketApp → list WebSocketApp) (w : world) : world :=
  {| active_sessions := active_sessions w; sockets := f (sockets w);
     threads := threads w; posted := posted w; emitted := emitted w;
     stdout := stdout w |}.
Definition set_threads (f : list thread → list thread) (w : world) : world :=
  {| active_sessions := active_sessions w; sockets := sockets w;
     threads := f (threads w); posted := posted w; emitted := emitted w;
     stdout := stdout w |}.
Definition set_posted (f : list value → list value) (w : world) : world :=
  {| active_sessions := active_sessions w; sockets := sockets w;
     threads := threads w; posted := f (posted w); emitted := emitted w;
     stdout := stdout w |}.
Definition set_emitted (f : list emission → list emission) (w : world) : world :=
  {| active_sessions := active_sessions w; sockets := sockets w;
     threads := threads w; posted := posted w; emitted := f (emitted w);
     stdout := stdout w |}.
Definition set_stdout (f : list (list piece) → list (list piece)) (w : world) : world :=
  {| active_sessions := active_sessions w; sockets := sockets w;
     threads := threads w; posted := posted w; emitted := emitted w;
     stdout := f (stdout w) |}.

(** ** The handler monad: state and exceptions *)

Inductive result (A : Type) :=
  | Return (a : A)
  | Raise (e : exn).
Arguments Return {A} a.
Arguments Raise {A} e.

Definition M (A : Type) : Type := world → result A * world.

Definition ret {A} (a : A) : M A := λ w, (Return a, w).
Definition raise {A} (e : exn) : M A := λ w, (Raise e, w).
Definition bind {A B} (m : M A) (k : A → M B) : M B :=
  λ w, match m w with
       | (Return a, w') => k a w'
       | (Raise e, w') => (Raise e, w')
       end.
(** [try: body except: handler]; a handler that does not match re-raises. *)
Definition try_except {A} (body : M A) (handler : exn → M A) : M A :=
  λ w, match body w with
       | (Return a, w') => (Return a, w')
       | (Raise e, w') => handler e w'
       end.
Definition get : M world := λ w, (Return w, w).
Definition modify (f : world → world) : M unit := λ w, (Return tt, f w).
Definition when (b : bool) (m : M unit) : M unit := if b then m else ret tt.
Definition lift {A} (r : exn + A) : M A :=
  match r with inl e => raise e | inr a => ret a end.

#[global] Instance M_ret : MRet M := @ret.
#[global] Instance M_bind : MBind M := λ A B k m, bind m k.

Definition exec {A} (m : M A) (w : world) : world := snd (m w).
Definition outcome {A} (m : M A) (w : world) : result A := fst (m w).

(** ** Primitive operations *)

(** [print(...)] *)
Definition py_print (line : list piece) : M unit :=
  modify (set_stdout (λ out, out ++ [line])).

(** [emit(name, data)] inside a handler goes to the requesting client;
    [socketio.emit(name, data, room=client_sid)] names it. *)
Definition emit (name : string) (data : value) (room : string) : M unit :=
  modify (set_emitted (λ evs, evs ++ [{| ev_name := name; ev_data := data; ev_room := room |}])).

(** [v.get(k, d)]: only a dict has the method. *)
Definition py_get (v : value) (k : string) (d : value) : M value :=
  match v with
  | VDict kvs => mret (default d (dict_lookup k kvs))
  | _ => raise (AttributeError (type_name v) "get")
  end.

(** [v[k]] for a string key. *)
Definition py_getitem (v : value) (k : string) : M value :=
  match v with
  | VDict kvs =>
      match dict_lookup k kvs with
      | Some x => mret x
      | None => raise (KeyError k)
      end
  | VList _ => raise (TypeError "list indices must be integers or slices, not str")
  | VStr _ => raise (TypeError "string indices must be integers, not 'str'")
  | _ => raise (TypeError ("'" +:+ type_name v +:+ "' object is not subscriptable"))
  end.

(** [len(v)].  For a [str] the bytes are counted: there are none exactly
    when there are no characters, and the code only asks for [len(v) > 0]. *)
Definition py_len (v : value) : M nat :=
  match v with
  | VStr s => mret (String.length s)
  | VList l => mret (length l)
  | VDict kvs => mret (length kvs)
  | _ => raise (TypeError ("object of type '" +:+ type_name v +:+ "' has no len()"))
  end.

(** The condition [v and len(v) > 0]. *)
Definition and_len_positive (v : value) : M bool :=
  if truthy v then n ← py_len v; mret (bool_decide (0 < n)%nat) else mret false.

(** [base64.b64decode(v)] *)
Definition py_b64decode `{PyLib} (v : value) : M bytes :=
  match v with
  | VStr s => lift (b64decode s)
  | _ => raise (TypeError ("argument should be a bytes-like object or ASCII string, not '"
                           +:+ type_name v +:+ "'"))
  end.

(** [active_sessions.get(sid)]: serves both [sid in active_sessions] and the
    indexing that follows it. *)
Definition session_of (sid : string) : M (option session) :=
  w ← get; mret (active_sessions w !! sid).

(** [del active_sessions[sid]] *)
Definition del_session (sid : string) : M unit :=
  w ← get;
  match active_sessions w !! sid with
  | Some _ => modify (set_sessions (delete sid))
  | None => raise (KeyError sid)
  end.

(** [websocket.WebSocketApp(url, on_open=..., ...)]: a fresh object, not yet
    connected; the result is its reference. *)
Definition WebSocketApp_new (url : value) (client_sid : string) : M nat :=
  w ← get;
  modify (set_sockets (λ l, l ++ [{| ws_url := url; ws_client := client_sid;
                                     sock := Connecting; running := false; sent := [] |}]));;
  mret (length (sockets w)).

(** [ws.run_forever()] blocks its thread for the life of the connection; the
    callbacks it makes arrive as separate events (see [step]).  The library
    marks the object as running first and looks at the URL next; when it
    does not take the URL the call raises there and then, and the object
    never makes a callback. *)
Definition run_forever `{PyLib} (h : nat) : M unit :=
  modify (set_sockets (alter (with_running true) h));;
  w ← get;
  match sockets w !! h ≫= λ a, refuses (ws_url a) with
  | Some msg => raise (Exception msg)
  | None => mret tt
  end.

(** [ws.close()]: drops the socket; safe on a closed one. *)
Definition ws_close (h : nat) : M unit :=
  modify (set_sockets (alter (with_sock Closed) h)).

(** [ws and ws.sock and ws.sock.connected] *)
Definition ws_connected (r : option nat) : M bool :=
  w ← get;
  mret (match r with
        | Some h => match sockets w !! h with
                    | Some a => match sock a with Connected => true | _ => false end
                    | None => false
                    end
        | None => false
        end).

(** [ws.send(data, opcode=0x2)] on what [.get('ws')] returned.  [fault] is
    what the transport does under the call: [Some e] when the connection
    breaks while sending. *)
Definition ws_send (r : option nat) (data : bytes) (fault : option exn) : M unit :=
  w ← get;
  match r with
  | None => raise (AttributeError "NoneType" "send")
  | Some h =>
      match fault, sock <$> sockets w !! h with
      | Some e, _ => raise e
      | None, Some Connected =>
          modify (set_sockets (alter (λ a, with_sent (sent a ++ [data]) a) h))
      | None, _ => raise (Exception "Connection is already closed.")
      end
  end.

(** [Thread(target=start_gladia_session, args=...).start()] *)
Definition thread_start (t : thread) : M unit :=
  modify (set_threads (λ l, l ++ [t])).

(** ['=' * 50] *)
Definition banner : list piece :=
  [Lit "=================================================="].

(** ** app.py: Socket.IO handlers *)

(** [handle_connect], lines 121-135 *)
Definition handle_connect (sid : string) : M unit :=
  py_print banner;;
  py_print [Lit "CLIENT CONNECTED: "; Lit sid];;
  py_print banner.

(** [handle_disconnect], lines 138-157 *)
Definition handle_disconnect (sid : string) : M unit :=
  try_except
    (py_print [Lit "Client disconnected: "; Lit sid];;
     s ← session_of sid;
     match s with
     | Some session_data =>
         match ws session_data with
         | Some h => ws_close h
         | None => mret tt
         end;;
         del_session sid
     | None => mret tt
     end)
    (λ e, py_print [Lit "Error during disconnect cleanup: "; Err e]).

(** [handle_start_stream], lines 160-216 *)
Definition handle_start_stream (client_sid : string) (config : value) : M unit :=
  py_print banner;;
  py_print [Lit "START STREAM CALLED FOR: "; Lit client_sid];;
  py_print banner;;
  let config := match config with VNone => VDict [] | _ => config end in
  speaker_name ← py_get config "speaker_name" (VStr "");
  partial_results ← py_get config "partial_results" (VBool true);
  languages ← py_get config "languages" (VList []);
  code_switching ← py_get config "code_switching" (VBool false);
  custom_vocabulary ← py_get config "custom_vocabulary" (VList []);
  py_print [Lit "Config: speaker_name="; Val speaker_name;
            Lit ", partial_results="; Val partial_results;
            Lit ", languages="; Val languages;
            Lit ", code_switching="; Val code_switching];;
  s ← session_of client_sid;
  when (bool_decide (s = None))
    (modify (set_sessions <[client_sid := Build_session None None]>));;
  modify (set_sessions (alter (λ e, Build_session
            (Some (Build_SessionConfig speaker_name partial_results languages
                                       code_switching custom_vocabulary))
            (ws e)) client_sid));;
  thread_start (Build_thread client_sid partial_results languages
                             code_switching custom_vocabulary);;
  emit "stream_started" (VDict [("status", VStr "ready")]) client_sid.

(** [handle_audio_data], lines 482-525 *)
Definition handle_audio_data `{PyLib} (client_sid : string) (data : value)
    (fault : option exn) : M unit :=
  s ← session_of client_sid;
  match s with
  | Some session_data =>
      let ws := ws session_data in
      ready ← ws_connected ws;
      when ready
        (try_except
           (audio ← py_getitem data "audio";
            audio_bytes ← py_b64decode audio;
            ws_send ws audio_bytes fault)
           (λ e, py_print [Lit "Error sending audio: "; Err e];;
                 emit "error"
                   (VDict [("message", VStr ("Error sending audio: " +:+ str_exn e))])
                   client_sid))
  | None => py_print [Lit "No active session for "; Lit client_sid]
  end.

(** [handle_stop_stream], lines 528-553 *)
Definition handle_stop_stream (client_sid : string) : M unit :=
  s ← session_of client_sid;
  match s with
  | Some session_data =>
      match ws session_data with
      | Some h => try_except (ws_close h) (λ _, mret tt)
      | None => mret tt
      end;;
      try_except (del_session client_sid)
                 (λ e, if is_KeyError e then mret tt else raise e)
  | None => mret tt
  end;;
  emit "stream_stopped" (VDict [("status", VStr "stopped")]) client_sid.

(** ** app.py: WebSocket callbacks (closures of [connect_to_gladia_websocket]) *)

(** The block of [on_message] that retrieves the custom speaker name,
    lines 421-427: [s] is the client's entry in [active_sessions], if any. *)
Definition display_name (s : option session) (speaker : value) : value :=
  match s with
  | Some e =>
      let stored_name :=
        match config e with
        | Some c => speaker_name c
        | None => VStr ""
        end in
      if eq_zero speaker && truthy stored_name then stored_name else VNone
  | None => VNone
  end.

(** [on_message], lines 394-442 *)
Definition on_message `{PyLib} (client_sid : string) (message : string) : M unit :=
  try_except
    (data ← lift (loads message);
     type ← py_get data "type" VNone;
     when (eq_str type "transcript")
       (d ← py_get data "data" (VDict []);
        utterance ← py_get d "utterance" (VDict []);
        speaker ← py_get utterance "speaker" (VInt 0);
        text ← py_get utterance "text" (VStr "");
        d ← py_get data "data" (VDict []);
        is_final ← py_get d "is_final" (VBool false);
        start_time ← py_get utterance "start" VNone;
        end_time ← py_get utterance "end" VNone;
        when (truthy text)
          (py_print [Lit "Transcript ["; Val speaker; Lit "]: "; Val text;
                     Lit " (final="; Val is_final; Lit ")"];;
           s ← session_of client_sid;
           let display_name := display_name s speaker in
           emit "transcript"
             (VDict [("speaker", speaker); ("text", text); ("is_final", is_final);
                     ("speaker_name", display_name); ("timestamp", start_time);
                     ("end_time", end_time)])
             client_sid)))
    (λ e, if is_JSONDecodeError e
          then py_print [Lit "Error parsing message: "; Err e]
          else py_print [Lit "Error in on_message: "; Err e]).

(** [on_error], lines 444-447 *)
Definition on_error (client_sid : string) (error : exn) : M unit :=
  py_print [Lit "WebSocket error: "; Err error];;
  emit "error" (VDict [("message", VStr (str_exn error))]) client_sid.

(** [on_close], lines 449-457 *)
Definition on_close (client_sid : string) (close_status_code close_msg : value) : M unit :=
  py_print [Lit "WebSocket closed: "; Val close_status_code; Lit " - "; Val close_msg];;
  s ← session_of client_sid;
  match s with
  | Some _ => del_session client_sid
  | None => mret tt
  end.

(** [on_open], lines 459-461 *)
Definition on_open : M unit :=
  py_print [Lit "Connected to Gladia WebSocket"].

(** [connect_to_gladia_websocket], lines 463-479 *)
Definition connect_to_gladia_websocket `{PyLib} (client_sid : string) (ws_url : value)
  : M unit :=
  h ← WebSocketApp_new ws_url client_sid;
  s ← session_of client_sid;
  match s with
  | Some e => modify (set_sessions <[client_sid := Build_session (config e) (Some h)]>)
  | None => modify (set_sessions <[client_sid := Build_session None (Some h)]>)
  end;;
  run_forever h.

(** ** app.py: the session thread *)

(** What [requests.post] comes back with. *)
Inductive post_result :=
  | Response (status_code : Z) (text : string)
  | Failed (msg : string).           (* it raised: no connection, timeout, ... *)

(** [requests.post(GLADIA_API_URL, headers=headers, json=payload)] *)
Definition requests_post (payload : value) (r : post_result) : M (Z * string) :=
  modify (set_posted (λ l, l ++ [payload]));;
  match r with
  | Response status_code text => mret (status_code, text)
  | Failed msg => raise (Exception msg)
  end.

(** [response.raise_for_status()] *)
Definition raise_for_status (response : Z * string) : M unit :=
  if bool_decide (400 ≤ response.1 < 600)
  then raise (HTTPError response.1 response.2)
  else mret tt.

(** [start_gladia_session], lines 219-344; [r] is the answer to its POST. *)
Definition start_gladia_session `{PyLib} (client_sid : string)
    (partial_results languages code_switching custom_vocabulary : value)
    (r : post_result) : M unit :=
  let languages := match languages with VNone => VList [] | _ => languages end in
  let custom_vocabulary :=
    match custom_vocabulary with VNone => VList [] | _ => custom_vocabulary end in
  let language_config : list (string * value) := [] in
  has_languages ← and_len_positive languages;
  let language_config :=
    if (has_languages : bool) then dict_set "languages" languages language_config
    else language_config in
  let language_config :=
    if truthy code_switching then dict_set "code_switching" (VBool true) language_config
    else language_config in
  let payload :=
    [("encoding", VStr "wav/pcm");
     ("sample_rate", VInt 16000);
     ("messages_config",
       VDict [("receive_partial_transcripts", partial_results);
              ("receive_final_transcripts", VBool true)])] in
  let payload :=
    if truthy (VDict language_config)
    then dict_set "language_config" (VDict language_config) payload
    else payload in
  has_vocabulary ← and_len_positive custom_vocabulary;
  let payload :=
    if (has_vocabulary : bool)
    then dict_set "realtime_processing"
           (VDict [("custom_vocabulary", VBool true);
                   ("custom_vocabulary_config",
                     VDict [("vocabulary", custom_vocabulary)])]) payload
    else payload in
  try_except
    (py_print [Lit "Creating Gladia session..."];;
     response ← requests_post (VDict payload) r;
     raise_for_status response;;
     session_data ← lift (loads response.2);
     ws_url ← py_get session_data "url" VNone;
     session_id ← py_get session_data "id" VNone;
     py_print [Lit "Session created: "; Val session_id];;
     connect_to_gladia_websocket client_sid ws_url)
    (λ e,
       match e with
       | HTTPError status_code text =>
           py_print [Lit "HTTP Error creating Gladia session: "; Err e];;
           py_print [Lit "Response: "; Lit text];;
           emit "error"
             (VDict [("message",
                      VStr ("Failed to create session: " +:+ pretty status_code
                            +:+ " - " +:+ text))])
             client_sid
       | _ =>
           py_print [Lit "Error creating Gladia session: "; Err e];;
           emit "error"
             (VDict [("message", VStr ("Failed to create session: " +:+ str_exn e))])
             client_sid
       end).

(** ** The process as a transition system

    Client commands, the answer to a session thread's POST, and the
    callbacks a running [WebSocketApp] makes, in the order they happen.  A
    callback is only made by an object whose [run_forever] is still running
    (one whose [run_forever] raised makes none: no callback event occurs for
    it); [on_message] only on a connected one.  An exception that escapes a
    handler ends that handler (and, for [PostAnswered], that thread); the
    process goes on. *)

Inductive event :=
  | Connect (sid : string)
  | Disconnect (sid : string)
  | StartStream (sid : string) (config : value)
  | AudioData (sid : string) (data : value) (fault : option exn)
  | StopStream (sid : string)
  | PostAnswered (k : nat) (r : post_result)     (* [k]: position among [threads] *)
  | WsOpen (h : nat)
  | WsMessage (h : nat) (message : string)
  | WsError (h : nat) (error : exn)
  | WsClose (h : nat) (close_status_code close_msg : value).

Definition is_connected (c : connection) : bool :=
  match c with Connected => true | _ => false end.
Definition is_connecting (c : connection) : bool :=
  match c with Connecting => true | _ => false end.

Definition callback (h : nat) (w : world) (guard : WebSocketApp → bool)
    (k : WebSocketApp → world) : world :=
  match sockets w !! h with
  | Some a => if guard a then k a else w
  | None => w
  end.

Definition step `{PyLib} (ev : event) (w : world) : world :=
  match ev with
  | Connect sid => exec (handle_connect sid) w
  | Disconnect sid => exec (handle_disconnect sid) w
  | StartStream sid config => exec (handle_start_stream sid config) w
  | AudioData sid data fault => exec (handle_audio_data sid data fault) w
  | StopStream sid => exec (handle_stop_stream sid) w
  | PostAnswered k r =>
      match threads w !! k with
      | Some t =>
          exec (start_gladia_session (t_client_sid t) (t_partial_results t)
                  (t_languages t) (t_code_switching t) (t_custom_vocabulary t) r)
               (set_threads (delete k) w)
      | None => w
      end
  | WsOpen h =>
      callback h w (λ a, running a && is_connecting (sock a))
        (λ a, exec on_open (set_sockets (alter (with_sock Connected) h) w))
  | WsMessage h message =>
      callback h w (λ a, running a && is_connected (sock a))
        (λ a, exec (on_message (ws_client a) message) w)
  | WsError h error =>
      callback h w running (λ a, exec (on_error (ws_client a) error) w)
  | WsClose h close_status_code close_msg =>
      callback h w running
        (λ a, exec (on_close (ws_client a) close_status_code close_msg)
                (set_sockets (alter (λ a, with_running false (with_sock Closed a)) h) w))
  end.

Definition run `{PyLib} (evs : list event) (w : world) : world :=
  foldl (λ w ev, step ev w) w evs.

(** The upstream handles of a client that are open: created for it and not
    closed, by [ws.close()] or by the far end. *)
Definition is_open (client_sid : string) (a : WebSocketApp) : bool :=
  String.eqb (ws_client a) client_sid && negb (match sock a with Closed => true | _ => false end).

Definition open_handles (client_sid : string) (w : world) : list nat :=
  (filter (λ ha, is_open client_sid ha.2 = true) (imap pair (sockets w))).*1.

(** ** Reference library

    A JSON reader, a base64 reader and a URL check, to run the handlers on
    concrete frames.  The JSON reader covers RFC 8259 with the number grammar
    of Python's scanner and its [Infinity] literals; a [\u] escape is stored
    as UTF-8 (a surrogate pair as one character, a lone surrogate as its
    three bytes), a literal too small for binary64 is read as zero.  It does
    not read [NaN], has none of Python's limits on nesting and on the digits
    of an int, and its error texts are summary ones, not Python's.  An
    object with a repeated key keeps the last value, as a Python dict does.
    The base64 reader follows CPython's
    [binascii.a2b_base64] in its default mode, which skips characters
    outside the alphabet and stops at a complete padding. *)

Module Reference.

Definition dquote : ascii := "034"%char.
Definition backslash : ascii := "\"%char.

Definition is_ws (c : ascii) : bool :=
  (Ascii.eqb c " " || Ascii.eqb c "009" || Ascii.eqb c "010" || Ascii.eqb c "013")%char.

Fixpoint skip_ws (s : list ascii) : list ascii :=
  match s with
  | c :: r => if is_ws c then skip_ws r else s
  | [] => []
  end.

Definition digit (c : ascii) : option Z :=
  let n := Z.of_nat (nat_of_ascii c) in
  if bool_decide (48 ≤ n ≤ 57) then Some (n - 48) else None.

Definition hex_digit (c : ascii) : option Z :=
  let n := Z.of_nat (nat_of_ascii c) in
  if bool_decide (48 ≤ n ≤ 57) then Some (n - 48)
  else if bool_decide (65 ≤ n ≤ 70) then Some (n - 55)
  else if bool_decide (97 ≤ n ≤ 102) then Some (n - 87)
  else None.

Fixpoint take_digits (s : list ascii) : list Z * list ascii :=
  match s with
  | c :: r =>
      match digit c with
      | Some d => let '(ds, r') := take_digits r in (d :: ds, r')
      | None => ([], s)
      end
  | [] => ([], [])
  end.

Definition decimal (ds : list Z) : Z := foldl (λ acc d, 10 * acc + d) 0 ds.

(** binary64 reads a literal of [digits] digits as zero when it is at most
    half the least subnormal, 2^-1075 (which lies above 10^-324). *)
Definition underflows (m e : Z) (digits : nat) : bool :=
  if bool_decide (m = 0 ∨ 0 ≤ e) then false
  else if bool_decide (Z.of_nat digits + e ≤ -324) then true
  else bool_decide (Z.abs m * 2 ^ 1075 ≤ 10 ^ (- e)).

(** An optional minus, then 0 or a digit string without leading zero, then
    an optional fraction (a dot and at least one digit), then an optional
    exponent (e or E, an optional sign, at least one digit): the longest
    match, as the regular expression of Python's scanner finds it. *)
Definition parse_number (s : list ascii) : option (value * list ascii) :=
  let '(negative, s1) :=
    match s with
    | c :: r => if Ascii.eqb c "-" then (true, r) else (false, s)
    | [] => (false, s)
    end in
  let '(int, s2) :=
    match take_digits s1 with
    | (0 :: _, _) => ([0], tail s1)
    | p => p
    end in
  let sign (n : Z) := if negative then - n else n in
  match int with
  | [] => None
  | _ =>
      let '(frac, s3) :=
        match s2 with
        | c :: r =>
            if Ascii.eqb c "." then
              match take_digits r with
              | ([], _) => (None, s2)
              | (ds, r') => (Some ds, r')
              end
            else (None, s2)
        | [] => (None, s2)
        end in
      let '(exp, s4) :=
        match s3 with
        | c :: r =>
            if (Ascii.eqb c "e" || Ascii.eqb c "E")%char then
              let '(minus, r1) :=
                match r with
                | c' :: r' => if Ascii.eqb c' "-" then (true, r')
                              else if Ascii.eqb c' "+" then (false, r')
                              else (false, r)
                | [] => (false, r)
                end in
              match take_digits r1 with
              | ([], _) => (None, s3)
              | (ds, r2) => (Some (if minus then - decimal ds else decimal ds), r2)
              end
            else (None, s3)
        | [] => (None, s3)
        end in
      match frac, exp with
      | None, None => Some (VInt (sign (decimal int)), s4)
      | _, _ =>
          let fs := default [] frac in
          let m := sign (decimal (int ++ fs)) in
          let e := default 0 exp - Z.of_nat (length fs) in
          Some (if underflows m e (length (int ++ fs)) then VFloat 0 0 else VFloat m e, s4)
      end
  end.

Definition unescape (c : ascii) : option ascii :=
  (if Ascii.eqb c dquote then Some dquote
   else if Ascii.eqb c backslash then Some backslash
   else if Ascii.eqb c "/" then Some "/"
   else if Ascii.eqb c "b" then Some "008"
   else if Ascii.eqb c "f" then Some "012"
   else if Ascii.eqb c "n" then Some "010"
   else if Ascii.eqb c "r" then Some "013"
   else if Ascii.eqb c "t" then Some "009"
   else None)%char.

Definition hex4 (h1 h2 h3 h4 : ascii) : option Z :=
  a ← hex_digit h1; b ← hex_digit h2; c ← hex_digit h3; d ← hex_digit h4;
  Some (4096 * a + 256 * b + 16 * c + d).

(** The UTF-8 bytes of a code point. *)
Definition utf8 (cp : Z) : string :=
  let b (n : Z) := String (ascii_of_nat (Z.to_nat n)) "" in
  if bool_decide (cp < 128) then b cp
  else if bool_decide (cp < 2048) then b (192 + cp / 64) +:+ b (128 + cp mod 64)
  else if bool_decide (cp < 65536) then
    b (224 + cp / 4096) +:+ b (128 + cp / 64 mod 64) +:+ b (128 + cp mod 64)
  else b (240 + cp / 262144) +:+ b (128 + cp / 4096 mod 64)
       +:+ b (128 + cp / 64 mod 64) +:+ b (128 + cp mod 64).

(** The low half of a surrogate pair, when the text goes on with one. *)
Definition low_surrogate (s : list ascii) : option Z :=
  match s with
  | b :: u :: l1 :: l2 :: l3 :: l4 :: _ =>
      if (Ascii.eqb b backslash && Ascii.eqb u "u")%char then
        lo ← hex4 l1 l2 l3 l4;
        if bool_decide (56320 ≤ lo ≤ 57343) then Some lo else None
      else None
  | _ => None
  end.

(** The rest of a string literal, after its opening quote. *)
Fixpoint parse_string (s : list ascii) (acc : string) : option (string * list ascii) :=
  match s with
  | [] => None
  | c :: r =>
      if Ascii.eqb c dquote then Some (acc, r)
      else if Ascii.eqb c backslash then
        match r with
        | e :: r' =>
            match unescape e with
            | Some c' => parse_string r' (acc +:+ String c' "")
            | None =>
                match r' with
                | h1 :: h2 :: h3 :: h4 :: r'' =>
                    if Ascii.eqb e "u" then
                      match hex4 h1 h2 h3 h4 with
                      | Some hi =>
                          match (if bool_decide (55296 ≤ hi ≤ 56319)
                                 then low_surrogate r'' else None), r'' with
                          | Some lo, _ :: _ :: _ :: _ :: _ :: _ :: r3 =>
                              parse_string r3
                                (acc +:+ utf8 (65536 + 1024 * (hi - 55296) + (lo - 56320)))
                          | _, _ => parse_string r'' (acc +:+ utf8 hi)
                          end
                      | None => None
                      end
                    else None
                | _ => None
                end
            end
        | [] => None
        end
      else if bool_decide (nat_of_ascii c < 32)%nat then None
      else parse_string r (acc +:+ String c "")
  end.

Fixpoint starts_with (p s : list ascii) : option (list ascii) :=
  match p, s with
  | [], _ => Some s
  | a :: p', b :: s' => if Ascii.eqb a b then starts_with p' s' else None
  | _ :: _, [] => None
  end.

Fixpoint parse_value (fuel : nat) (s : list ascii) {struct fuel}
  : option (value * list ascii) :=
  match fuel with
  | O => None
  | S n =>
      match skip_ws s with
      | [] => None
      | c :: r =>
          if Ascii.eqb c "{" then
            match skip_ws r with
            | c' :: r' => if Ascii.eqb c' "}" then Some (VDict [], r')
                          else parse_members n [] r
            | [] => None
            end
          else if Ascii.eqb c "[" then
            match skip_ws r with
            | c' :: r' => if Ascii.eqb c' "]" then Some (VList [], r')
                          else parse_elements n [] r
            | [] => None
            end
          else if Ascii.eqb c dquote then
            '(str, r') ← parse_string r ""; Some (VStr str, r')
          else
            match starts_with (String.list_ascii_of_string "true") (c :: r),
                  starts_with (String.list_ascii_of_string "false") (c :: r),
                  starts_with (String.list_ascii_of_string "null") (c :: r) with
            | Some r', _, _ => Some (VBool true, r')
            | _, Some r', _ => Some (VBool false, r')
            | _, _, Some r' => Some (VNone, r')
            | None, None, None =>
                match parse_number (c :: r) with
                | Some p => Some p
                | None =>
                    (* [Infinity]: read as a literal beyond the range of binary64 *)
                    match starts_with (String.list_ascii_of_string "Infinity") (c :: r),
                          starts_with (String.list_ascii_of_string "-Infinity") (c :: r) with
                    | Some r', _ => Some (VFloat 1 400, r')
                    | _, Some r' => Some (VFloat (-1) 400, r')
                    | None, None => None
                    end
                end
            end
      end
  end
with parse_elements (fuel : nat) (acc : list value) (s : list ascii) {struct fuel}
  : option (value * list ascii) :=
  match fuel with
  | O => None
  | S n =>
      '(v, r) ← parse_value n s;
      match skip_ws r with
      | c :: r' =>
          if Ascii.eqb c "," then parse_elements n (acc ++ [v]) r'
          else if Ascii.eqb c "]" then Some (VList (acc ++ [v]), r')
          else None
      | [] => None
      end
  end
with parse_members (fuel : nat) (acc : list (string * value)) (s : list ascii)
    {struct fuel} : option (value * list ascii) :=
  match fuel with
  | O => None
  | S n =>
      match skip_ws s with
      | q :: r =>
          if Ascii.eqb q dquote then
            '(k, r1) ← parse_string r "";
            match skip_ws r1 with
            | c :: r2 =>
                if Ascii.eqb c ":" then
                  '(v, r3) ← parse_value n r2;
                  match skip_ws r3 with
                  | c' :: r4 =>
                      if Ascii.eqb c' "," then parse_members n (dict_set k v acc) r4
                      else if Ascii.eqb c' "}" then Some (VDict (dict_set k v acc), r4)
                      else None
                  | [] => None
                  end
                else None
            | [] => None
            end
          else None
      | [] => None
      end
  end.

Definition json_loads (s : string) : exn + value :=
  let cs := String.list_ascii_of_string s in
  match parse_value (2 * length cs + 2) cs with
  | Some (v, r) =>
      match skip_ws r with
      | [] => inr v
      | _ => inl (JSONDecodeError "Extra data")
      end
  | None => inl (JSONDecodeError "Expecting value")
  end.

Definition b64_digit (c : ascii) : option N :=
  let n := N_of_ascii c in
  (if bool_decide (65 ≤ n ≤ 90) then Some (n - 65)
   else if bool_decide (97 ≤ n ≤ 122) then Some (n - 71)
   else if bool_decide (48 ≤ n ≤ 57) then Some (n + 4)
   else if bool_decide (n = 43) then Some 62
   else if bool_decide (n = 47) then Some 63
   else None)%N.

Definition octet (n : N) : byte := default x00 (Byte.of_N (n mod 256)%N).

(** The loop of [a2b_base64]: [quad_pos] digits of the current group of four
    are in, [leftchar] holds the bits not yet written, [pads] counts the
    padding characters seen since the last digit. *)
Fixpoint a2b_base64 (s : list ascii) (quad_pos : nat) (leftchar : N) (pads : nat)
    (out : bytes) : exn + bytes :=
  match s with
  | [] =>
      match quad_pos with
      | 0%nat => inr out
      | 1%nat =>
          inl (Exception ("Invalid base64-encoded string: number of data characters ("
                          +:+ pretty (length out / 3 * 4 + 1)%nat
                          +:+ ") cannot be 1 more than a multiple of 4"))
      | _ => inl (Exception "Incorrect padding")
      end
  | c :: r =>
      if Ascii.eqb c "=" then
        if bool_decide (2 ≤ quad_pos)%nat then
          if bool_decide (4 ≤ quad_pos + S pads)%nat then inr out
          else a2b_base64 r quad_pos leftchar (S pads) out
        else a2b_base64 r quad_pos leftchar pads out
      else
        match b64_digit c with
        | None => a2b_base64 r quad_pos leftchar pads out
        | Some d =>
            match quad_pos with
            | 0%nat => a2b_base64 r 1 d 0 out
            | 1%nat => a2b_base64 r 2 (d mod 16) 0 (out ++ [octet (leftchar * 4 + d / 16)])
            | 2%nat => a2b_base64 r 3 (d mod 4) 0 (out ++ [octet (leftchar * 16 + d / 4)])
            | _ => a2b_base64 r 0 0 0 (out ++ [octet (leftchar * 64 + d)])
            end
        end
  end%N.

(** [base64.b64decode(s)] for a [str]: ASCII only, then [a2b_base64]. *)
Definition b64decode (s : string) : exn + bytes :=
  let cs := String.list_ascii_of_string s in
  if forallb (λ c, bool_decide (nat_of_ascii c < 128)%nat) cs
  then a2b_base64 cs 0 0 0 []
  else inl (Exception "string argument should contain only ASCII characters").

(** What [run_forever] of websocket-client makes of a URL before it
    connects: it starts with [":" not in url], then splits the URL there.
    Its further checks, of host, port and scheme, are left out. *)
Definition has_colon (v : value) : M bool :=
  match v with
  | VStr s => mret (existsb (Ascii.eqb ":") (String.list_ascii_of_string s))
  | VList l => mret (existsb (λ x, eq_str x ":") l)
  | VDict kvs => mret (bool_decide (is_Some (dict_lookup ":" kvs)))
  | _ => raise (TypeError ("argument of type '" +:+ type_name v +:+ "' is not iterable"))
  end.

Definition parse_url (url : value) : M unit :=
  colon ← has_colon url;
  if (colon : bool) then
    match url with
    | VStr _ => mret tt
    | _ => raise (AttributeError (type_name url) "split")
    end
  else raise (Exception "url is invalid").

Definition refuses (url : value) : option string :=
  match outcome (parse_url url) initial with
  | Return _ => None
  | Raise e => Some (str_exn e)
  end.

(** Frames are written with ['] for the double quote. *)
Definition quoted (s : string) : string :=
  String.string_of_list_ascii
    (map (λ c, if Ascii.eqb c "'" then dquote else c) (String.list_ascii_of_string s)).

End Reference.

#[export] Instance reference_lib : PyLib :=
  {| loads := Reference.json_loads; b64decode := Reference.b64decode;
     refuses := Reference.refuses |}.

(** ** cli.py: the frame handler

    [on_message], lines 70-114, with the module constants as they are set
    ([DEBUG_MESSAGES = False], [SHOW_PARTIAL_RESULTS = True],
    [CLEAR_PARTIAL_LINE = True]).  What it writes is the formatted line; the
    cursor-control sequences around it, and the counter [last_partial_lines]
    that only drives them, are left out.  It has no [try]: an exception
    leaves the handler. *)

Module Cli.

(** [str.isspace], which [str.strip()] goes by, on the UTF-8 bytes of a
    character: U+0009 to U+000D, U+001C to U+0020; U+0085, U+00A0; U+1680,
    U+2000 to U+200A, U+2028, U+2029, U+202F, U+205F, U+3000. *)
Definition is_space (c : ascii) : bool :=
  let n := nat_of_ascii c in
  bool_decide (9 ≤ n ≤ 13)%nat || bool_decide (28 ≤ n ≤ 32)%nat.

Definition is_space2 (c1 c2 : ascii) : bool :=
  let '(a, b) := (nat_of_ascii c1, nat_of_ascii c2) in
  bool_decide (a = 194 ∧ (b = 133 ∨ b = 160))%nat.

Definition is_space3 (c1 c2 c3 : ascii) : bool :=
  let '(a, b, c) := (nat_of_ascii c1, nat_of_ascii c2, nat_of_ascii c3) in
  bool_decide ((a = 225 ∧ b = 154 ∧ c = 128)
               ∨ (a = 226 ∧ b = 128 ∧ (128 ≤ c ≤ 138 ∨ c = 168 ∨ c = 169 ∨ c = 175))
               ∨ (a = 226 ∧ b = 129 ∧ c = 159)
               ∨ (a = 227 ∧ b = 128 ∧ c = 128))%nat.

Fixpoint lstrip (s : list ascii) : list ascii :=
  match s with
  | [] => []
  | c1 :: r1 =>
      if is_space c1 then lstrip r1
      else
        match r1 with
        | [] => s
        | c2 :: r2 =>
            if is_space2 c1 c2 then lstrip r2
            else
              match r2 with
              | [] => s
              | c3 :: r3 => if is_space3 c1 c2 c3 then lstrip r3 else s
              end
        end
  end.

(** The same from the right, on the reversed text. *)
Fixpoint rstrip_rev (s : list ascii) : list ascii :=
  match s with
  | [] => []
  | c1 :: r1 =>
      if is_space c1 then rstrip_rev r1
      else
        match r1 with
        | [] => s
        | c2 :: r2 =>
            if is_space2 c2 c1 then rstrip_rev r2
            else
              match r2 with
              | [] => s
              | c3 :: r3 => if is_space3 c3 c2 c1 then rstrip_rev r3 else s
              end
        end
  end.

Definition strip (s : string) : string :=
  String.string_of_list_ascii
    (rev (rstrip_rev (rev (lstrip (String.list_ascii_of_string s))))).

(** [v.strip()] *)
Definition py_strip (v : value) : M string :=
  match v with
  | VStr s => mret (strip s)
  | _ => raise (AttributeError (type_name v) "strip")
  end.

(** [f"{v:.2f}"]: an int goes through [float], which has no value for one
    that rounds to 2^1024 or beyond. *)
Definition py_format_2f (v : value) : M piece :=
  match v with
  | VInt n =>
      if bool_decide (Z.abs n < 2 ^ 1024 - 2 ^ 970) then mret (Fix2 v)
      else raise (Exception "int too large to convert to float")
  | VFloat _ _ | VBool _ => mret (Fix2 v)
  | VStr _ => raise (Exception "Unknown format code 'f' for object of type 'str'")
  | _ => raise (TypeError ("unsupported format string passed to "
                           +:+ type_name v +:+ ".__format__"))
  end.

Definition on_message `{PyLib} (message : string) : M unit :=
  data ← lift (loads message);
  type ← py_get data "type" VNone;
  when (eq_str type "transcript")
    (d ← py_get data "data" (VDict []);
     utterance ← py_get d "utterance" (VDict []);
     text ← py_get utterance "text" (VStr "");
     text ← py_strip text;
     if String.eqb text "" then mret tt
     else
       speaker ← py_get utterance "speaker" (VInt 0);
       d ← py_get data "data" (VDict []);
       is_final ← py_get d "is_final" (VBool false);
       start ← py_get utterance "start" (VInt 0);
       end_ ← py_get utterance "end" (VInt 0);
       start_2f ← py_format_2f start;
       end_2f ← py_format_2f end_;
       let status := if truthy is_final then "Final" else "Partial" in
       py_print [Lit "["; start_2f; Lit "s - "; end_2f; Lit "s] [Speaker ";
                 Val speaker; Lit "] ["; Lit status; Lit "] - "; Lit text]).

End Cli.

(** ** Sample frames and answers *)

Definition transcript_frame : string :=
  Reference.quoted
    "{'type':'transcript','data':{'is_final':false,'utterance':{'text':'he','speaker':0,'start':0.1,'end':0.4}}}".

Definition blank_frame : string :=
  Reference.quoted
    "{'type':'transcript','data':{'is_final':true,'utterance':{'text':'   ','speaker':0}}}".

Definition speech_start_frame : string :=
  Reference.quoted "{'type':'speech_start','data':{'time':1.5}}".

Definition error_frame : string :=
  Reference.quoted "{'type':'error','data':{'message':'quota exceeded'}}".

Definition session_created : post_result :=
  Response 201 (Reference.quoted "{'id':'s1','url':'wss://x'}").

(** A client that asked for the label Ada and is streaming on handle 0. *)
Definition ada_streaming : world :=
  run [StartStream "c" (VDict [("speaker_name", VStr "Ada")]);
       PostAnswered 0 session_created; WsOpen 0] initial.

(** The [transcript] event [on_message] builds, lines 430-437. *)
Definition transcript (client_sid : string)
    (speaker text is_final display_name start_time end_time : value) : emission :=
  {| ev_name := "transcript";
     ev_data := VDict [("speaker", speaker); ("text", text); ("is_final", is_final);
                       ("speaker_name", display_name); ("timestamp", start_time);
                       ("end_time", end_time)];
     ev_room := client_sid |}.

(** The answer of [handle_stop_stream], line 553. *)
Definition stream_stopped (client_sid : string) : emission :=
  {| ev_name := "stream_stopped"; ev_data := VDict [("status", VStr "stopped")];
     ev_room := client_sid |}.

(** The [error] event of [handle_audio_data], line 523. *)
Definition audio_error (client_sid : string) (e : exn) : emission :=
  {| ev_name := "error";
     ev_data := VDict [("message", VStr ("Error sending audio: " +:+ str_exn e))];
     ev_room := client_sid |}.

(** The sockets after closing the handle a client's entry holds, if any. *)
Definition closed_for (client_sid : string) (w : world) : list WebSocketApp :=
  match active_sessions w !! client_sid ≫= ws with
  | Some h => alter (with_sock Closed) h (sockets w)
  | None => sockets w
  end.

(** The handle a client is streaming on: its entry holds one, and that one
    is connected. *)
Definition streaming_on (w : world) (client_sid : string) : option nat :=
  e ← active_sessions w !! client_sid;
  h ← ws e;
  a ← sockets w !! h;
  if is_connected (sock a) then Some h else None.

(** A key of an event's payload. *)
Definition field (k : string) (ev : emission) : option value :=
  match ev_data ev with
  | VDict kvs => dict_lookup k kvs
  | _ => None
  end.

(** ** app.py: the HTTP routes

    [index], [verify_access], [favicon] and [logo], lines 60-118.
    [ACCESS_KEY] is what [os.getenv] returned; the Flask session is its own
    dict plus the [permanent] flag; [data] is what [request.get_json()]
    returned. *)

Module Routes.

Record flask_session := {
  permanent : bool;
  items : list (string * value)
}.

Inductive response :=
  | send_from_directory (directory filename : string)
  | jsonify (body : value) (status : Z).

(** Truthiness of an [Optional[str]]. *)
Definition is_set (key : option string) : bool :=
  match key with
  | Some k => negb (String.eqb k "")
  | None => false
  end.

(** [provided_key == ACCESS_KEY] *)
Definition eq_key (provided_key : value) (key : option string) : bool :=
  match key with
  | Some k => eq_str provided_key k
  | None => match provided_key with VNone => true | _ => false end
  end.

Definition index (ACCESS_KEY : option string) (session : flask_session) : response :=
  if negb (is_set ACCESS_KEY) then send_from_directory "static" "index.html"
  else if truthy (default VNone (dict_lookup "authenticated" (items session)))
  then send_from_directory "static" "index.html"
  else send_from_directory "static" "login.html".

Definition verify_access (ACCESS_KEY : option string) (data : value)
    (session : flask_session) : exn + response * flask_session :=
  match data with
  | VDict kvs =>
      let provided_key := default (VStr "") (dict_lookup "key" kvs) in
      if is_set ACCESS_KEY && eq_key provided_key ACCESS_KEY then
        let session := {| permanent := true; items := items session |} in
        let session := {| permanent := permanent session;
                          items := dict_set "authenticated" (VBool true) (items session) |} in
        inr (jsonify (VDict [("success", VBool true)]) 200, session)
      else
        inr (jsonify (VDict [("success", VBool false);
                             ("error", VStr "Invalid access key")]) 401, session)
  | _ => inl (AttributeError (type_name data) "get")
  end.

Definition favicon : response := send_from_directory "assets" "gladia-logo.ico".
Definition logo : response := send_from_directory "assets" "gladia-logo.png".

End Routes.

(** ** cli.py: [create_session], lines 37-64

    The module constants are a record, so that the function can be read for
    any setting of them; [module_constants] are the values in the file. *)

Module CliSetup.

Record constants := {
  SAMPLE_RATE : value;
  SHOW_PARTIAL_RESULTS : value;
  LANGUAGES : value;
  CODE_SWITCHING : value;
  CUSTOM_VOCABULARY : value
}.

Definition module_constants : constants :=
  {| SAMPLE_RATE := VInt 16000;
     SHOW_PARTIAL_RESULTS := VBool true;
     LANGUAGES := VList [VStr "fr"];
     CODE_SWITCHING := VBool false;
     CUSTOM_VOCABULARY :=
       VList [VStr "Gladia"; VStr "API"; VStr "transcription"; VStr "diarization"] |}.

(** [d[k][k2] = v]: the dict under [k] is updated in place. *)
Definition dict_set_in (k k2 : string) (v : value) (kvs : list (string * value))
  : list (string * value) :=
  match dict_lookup k kvs with
  | Some (VDict inner) => dict_set k (VDict (dict_set k2 v inner)) kvs
  | _ => kvs
  end.

(** [d.setdefault(k, v)], for its effect on [d]. *)
Definition dict_setdefault (k : string) (v : value) (kvs : list (string * value))
  : list (string * value) :=
  match dict_lookup k kvs with
  | Some _ => kvs
  | None => dict_set k v kvs
  end.

Definition create_session `{PyLib} (c : constants) (r : post_result) : M value :=
  let payload :=
    [("encoding", VStr "wav/pcm");
     ("sample_rate", SAMPLE_RATE c);
     ("messages_config",
       VDict [("receive_partial_transcripts", SHOW_PARTIAL_RESULTS c);
              ("receive_final_transcripts", VBool true)])] in
  let payload :=
    if truthy (LANGUAGES c) then
      let payload :=
        dict_set "language_config" (VDict [("languages", LANGUAGES c)]) payload in
      if truthy (CODE_SWITCHING c)
      then dict_set_in "language_config" "code_switching" (VBool true) payload
      else payload
    else payload in
  let payload :=
    if truthy (CUSTOM_VOCABULARY c) then
      let payload := dict_setdefault "realtime_processing" (VDict []) payload in
      let payload :=
        dict_set_in "realtime_processing" "custom_vocabulary" (VBool true) payload in
      dict_set_in "realtime_processing" "custom_vocabulary_config"
        (VDict [("vocabulary", CUSTOM_VOCABULARY c)]) payload
    else payload in
  py_print [Lit "Creating session with payload:"];;
  py_print [Val (VDict payload)];;               (* as [json.dumps] renders it *)
  response ← requests_post (VDict payload) r;
  raise_for_status response;;
  data ← lift (loads response.2);
  id ← py_getitem data "id";
  py_print [Lit (String "010" "Session created: "); Val id];;
  py_getitem data "url".

End CliSetup.

(** ** cli.py: [should_send_audio], lines 117-124, and the sending loop

    [ENABLE_VAD] and [VAD_THRESHOLD] are parameters.  A sample is a signed
    16-bit integer, low byte first (the format ['h'] in the byte order of a
    little-endian host).  [rms > VAD_THRESHOLD] compares the quotient of two
    integers with an integer; it is taken exactly, as [threshold * n < sum],
    which is what the correctly rounded float quotient gives for any buffer
    that fits in memory. *)

Module CliVad.

Definition int16 (lo hi : byte) : Z :=
  let u := Z.of_N (Byte.to_N lo) + 256 * Z.of_N (Byte.to_N hi) in
  if u <? 32768 then u else u - 65536.

(** [struct.unpack(f'{len(audio_data)//2}h', audio_data)]: [None] when the
    buffer is not of the size the format asks for. *)
Fixpoint unpack_h (audio_data : bytes) : option (list Z) :=
  match audio_data with
  | [] => Some []
  | lo :: hi :: rest => cons (int16 lo hi) <$> unpack_h rest
  | [_] => None
  end.

Definition sum_abs (samples : list Z) : Z :=
  foldr (λ s acc, Z.abs s + acc) 0 samples.

Definition should_send_audio (ENABLE_VAD : bool) (VAD_THRESHOLD : Z)
    (audio_data : bytes) : exn + bool :=
  if negb ENABLE_VAD then inr true
  else
    match unpack_h audio_data with
    | None =>
        inl (Exception ("unpack requires a buffer of "
                        +:+ pretty (2 * (length audio_data / 2))%nat +:+ " bytes"))
    | Some samples =>
        if bool_decide (length samples = 0%nat)
        then inl (Exception "division by zero")
        else inr (VAD_THRESHOLD * Z.of_nat (length samples) <? sum_abs samples)
    end.

(** One turn of the loop of [run], lines 167-169, on the chunk the
    microphone delivered; [ws] is the client's only socket. *)
Definition run_iteration (ENABLE_VAD : bool) (VAD_THRESHOLD : Z) (ws : nat)
    (data : bytes) (fault : option exn) : M unit :=
  connected ← ws_connected (Some ws);
  if (connected : bool) then
    send ← lift (should_send_audio ENABLE_VAD VAD_THRESHOLD data);
    if (send : bool) then ws_send (Some ws) data fault else mret tt
  else mret tt.

End CliVad.

(** ** Notions used in the statements about the transition system *)

(** The client an event is about. *)
Definition subject (ev : event) (w : world) : option string :=
  match ev with
  | Connect sid | Disconnect sid | StartStream sid _ | AudioData sid _ _
  | StopStream sid => Some sid
  | PostAnswered k _ => t_client_sid <$> threads w !! k
  | WsOpen h | WsMessage h _ | WsError h _ | WsClose h _ _ =>
      ws_client <$> sockets w !! h
  end.

(** A socket later in its life: same owner and URL, more frames sent, and
    nothing more once it is closed. *)
Definition evolves (a a' : WebSocketApp) : Prop :=
  ws_client a' = ws_client a ∧ ws_url a' = ws_url a ∧
  sent a `prefix_of` sent a' ∧
  (sock a = Closed → sock a' = Closed ∧ sent a' = sent a).

Definition sockets_evolve (l l' : list WebSocketApp) : Prop :=
  ∀ h a, l !! h = Some a → ∃ a', l' !! h = Some a' ∧ evolves a a'.

(** Every handle held in the registry exists and was created for the client
    it is held for. *)
Definition handles_valid (w : world) : Prop :=
  ∀ sid e h, active_sessions w !! sid = Some e → ws e = Some h →
    ∃ a, sockets w !! h = Some a ∧ ws_client a = sid.

(** What a handler run for [sid] may do to the world. *)
Definition footprint (sid : string) (w w' : world) : Prop :=
  (∀ sid', sid' ≠ sid → active_sessions w' !! sid' = active_sessions w !! sid') ∧
  (∃ new, emitted w' = emitted w ++ new ∧ Forall (λ e, ev_room e = sid) new) ∧
  sockets_evolve (sockets w) (sockets w') ∧
  (∀ e' h, active_sessions w' !! sid = Some e' → ws e' = Some h →
     (∃ e, active_sessions w !! sid = Some e ∧ ws e = Some h) ∨
     (∃ a, sockets w' !! h = Some a ∧ ws_client a = sid)).

(** * Properties *)

(** Unfolding the monad down to the world it threads. *)
Ltac run_monad :=
  unfold exec, outcome, try_except, when, mbind, M_bind, bind, mret, M_ret, ret,
    raise, lift, get, modify in *.

Ltac run_prims :=
  unfold session_of, del_session, emit, py_print, py_get, py_getitem, thread_start,
    ws_close, ws_connected, ws_send, run_forever, WebSocketApp_new in *;
  run_monad.

(** Case analysis on whatever the computation branches on next. *)
Ltac branch :=
  match goal with
  | |- context [match ?x with _ => _ end] =>
      lazymatch x with
      | context [match _ with _ => _ end] => fail
      | _ => destruct x eqn:?
      end
  end.

Ltac crunch := repeat (simpl; try done; branch).

(** ** Inbound frames: [on_message] *)

(** What [on_message] prints never feeds back into what it emits. *)
Lemma on_message_ignores_stdout `{PyLib} (client_sid message : string) (w : world) f :
  emitted (exec (on_message client_sid message) (set_stdout f w)) =
  emitted (exec (on_message client_sid message) w).
Proof. unfold on_message. run_prims. crunch. Qed.

(** [on_message] touches neither the table of sessions nor any socket. *)
Lemma on_message_keeps_state `{PyLib} (client_sid message : string) (w : world) :
  let w' := exec (on_message client_sid message) w in
  active_sessions w' = active_sessions w ∧ sockets w' = sockets w ∧
  threads w' = threads w ∧ posted w' = posted w.
Proof. unfold on_message. run_prims. crunch. Qed.

(** It never raises: both [except] clauses only print. *)
Lemma on_message_returns `{PyLib} (client_sid message : string) (w : world) :
  outcome (on_message client_sid message) w = Return tt.
Proof. unfold on_message. run_prims. crunch. Qed.

(** It emits nothing, or one [transcript] event with a truthy text. *)
Lemma on_message_emits `{PyLib} (client_sid message : string) (w : world) :
  emitted (exec (on_message client_sid message) w) = emitted w ∨
  ∃ speaker text is_final start_time end_time,
    truthy text = true ∧
    emitted (exec (on_message client_sid message) w) =
      emitted w ++
      [transcript client_sid speaker text is_final
         (display_name (active_sessions w !! client_sid) speaker)
         start_time end_time].
Proof.
  unfold on_message. run_prims.
  repeat (simpl; first [ by left | branch ]).
  all: right; eexists _, _, _, _, _; split; [eassumption | reflexivity].
Qed.

(** A frame whose text is empty, absent or otherwise falsy is dropped. *)
Lemma empty_text_suppressed `{PyLib} (client_sid message : string) (w : world)
    (top d u : list (string * value)) :
  loads message = inr (VDict top) →
  dict_lookup "data" top = Some (VDict d) →
  dict_lookup "utterance" d = Some (VDict u) →
  truthy (default (VStr "") (dict_lookup "text" u)) = false →
  emitted (exec (on_message client_sid message) w) = emitted w.
Proof.
  intros Hl Hd Hu Ht. unfold on_message. run_prims.
  rewrite Hl. simpl. destruct (eq_str _ _); [|done].
  simpl. rewrite Hd. simpl. rewrite Hu. simpl. by rewrite Ht.
Qed.

(** C7: an inbound frame of type transcript with a non-empty text is
    forwarded as one [transcript] event to the owning client, carrying the
    frame's speaker (0 if absent), its text, its finality flag (false if
    absent) and its start and end times (None if absent). *)
Theorem transcript_frame_forwarded `{PyLib} (client_sid message : string) (w : world)
    (top d u : list (string * value)) (text : value) :
  loads message = inr (VDict top) →
  dict_lookup "type" top = Some (VStr "transcript") →
  dict_lookup "data" top = Some (VDict d) →
  dict_lookup "utterance" d = Some (VDict u) →
  dict_lookup "text" u = Some text →
  truthy text = true →
  emitted (exec (on_message client_sid message) w) =
    emitted w ++
    [transcript client_sid
       (default (VInt 0) (dict_lookup "speaker" u))
       text
       (default (VBool false) (dict_lookup "is_final" d))
       (display_name (active_sessions w !! client_sid)
                     (default (VInt 0) (dict_lookup "speaker" u)))
       (default VNone (dict_lookup "start" u))
       (default VNone (dict_lookup "end" u))].
Proof.
  intros Hl Hty Hd Hu Ht Htr. unfold on_message. run_prims.
  rewrite Hl. simpl. rewrite Hty. simpl. rewrite Hd. simpl. rewrite Hu. simpl.
  rewrite Ht. simpl. rewrite Htr. reflexivity.
Qed.

(** The frame of the end-to-end scenario, received for a client whose
    session carries no label. *)
Lemma transcript_frame_forwarded_witness :
  emitted (exec (on_message "c" transcript_frame) initial) =
    [transcript "c" (VInt 0) (VStr "he") (VBool false) VNone
                (VFloat 1 (-1)) (VFloat 4 (-1))].
Proof.
  exact (transcript_frame_forwarded "c" transcript_frame initial
           [("type", VStr "transcript");
            ("data", VDict [("is_final", VBool false);
                            ("utterance",
                             VDict [("text", VStr "he"); ("speaker", VInt 0);
                                    ("start", VFloat 1 (-1)); ("end", VFloat 4 (-1))])])]
           [("is_final", VBool false);
            ("utterance", VDict [("text", VStr "he"); ("speaker", VInt 0);
                                 ("start", VFloat 1 (-1)); ("end", VFloat 4 (-1))])]
           [("text", VStr "he"); ("speaker", VInt 0);
            ("start", VFloat 1 (-1)); ("end", VFloat 4 (-1))]
           (VStr "he")
           eq_refl eq_refl eq_refl eq_refl eq_refl eq_refl).
Defined.

(** C6: in every forwarded transcript event, the display name is the
    session's custom label when the speaker is 0 and the label is a non-empty
    string; it is None for any other speaker index, and when no label is
    held for the client (no entry, no config, or an empty one). *)
Theorem display_name_override `{PyLib} (client_sid message : string) (w : world)
    (ev : emission) :
  emitted (exec (on_message client_sid message) w) = emitted w ++ [ev] →
  ev_name ev = "transcript" ∧
  ∃ speaker,
    field "speaker" ev = Some speaker ∧
    (∀ e c label,
       speaker = VInt 0 → active_sessions w !! client_sid = Some e →
       config e = Some c → speaker_name c = VStr label → label ≠ "" →
       field "speaker_name" ev = Some (VStr label)) ∧
    (∀ n, speaker = VInt n → n ≠ 0 → field "speaker_name" ev = Some VNone) ∧
    (active_sessions w !! client_sid = None → field "speaker_name" ev = Some VNone) ∧
    (∀ e, active_sessions w !! client_sid = Some e → config e = None →
          field "speaker_name" ev = Some VNone) ∧
    (∀ e c, active_sessions w !! client_sid = Some e → config e = Some c →
            truthy (speaker_name c) = false → field "speaker_name" ev = Some VNone).
Proof.
  intros Hev.
  destruct (on_message_emits client_sid message w)
    as [Hnone | (speaker & text & is_final & t0 & t1 & _ & Hsome)].
  { rewrite Hnone in Hev. apply (f_equal length) in Hev.
    rewrite length_app in Hev. simpl in Hev. lia. }
  rewrite Hsome in Hev. apply app_inv_head in Hev. injection Hev as <-.
  split; [reflexivity|]. exists speaker. split; [reflexivity|].
  unfold field, display_name. simpl. repeat split.
  - intros e c label -> -> -> -> Hne. simpl.
    destruct (String.eqb_spec label ""); [done | reflexivity].
  - intros n -> Hn. simpl. destruct (Z.eqb_spec n 0); [done|].
    simpl. by destruct (active_sessions w !! client_sid).
  - by intros ->.
  - intros e -> ->. simpl. by rewrite andb_false_r.
  - intros e c -> -> ->. by rewrite andb_false_r.
Qed.

(** The scenario frame, for a client streaming with the label Ada. *)
Lemma display_name_override_witness :
  field "speaker_name"
    (transcript "c" (VInt 0) (VStr "he") (VBool false) (VStr "Ada")
                (VFloat 1 (-1)) (VFloat 4 (-1))) = Some (VStr "Ada").
Proof.
  destruct (display_name_override "c" transcript_frame ada_streaming
              (transcript "c" (VInt 0) (VStr "he") (VBool false) (VStr "Ada")
                          (VFloat 1 (-1)) (VFloat 4 (-1))))
    as (_ & speaker & Hspeaker & Hlabel & _).
  { vm_compute. reflexivity. }
  set (c := Build_SessionConfig (VStr "Ada") (VBool true) (VList []) (VBool false)
                                (VList [])).
  apply (Hlabel (Build_session (Some c) (Some 0%nat)) c "Ada").
  - vm_compute in Hspeaker. congruence.
  - vm_compute. reflexivity.
  - reflexivity.
  - reflexivity.
  - discriminate.
Defined.

(** C3, at a frame whose text is three spaces: the bridge tests the text as
    it stands ([if text:]), without trimming it, and forwards the event. *)
Theorem blank_text_is_forwarded :
  emitted (step (WsMessage 0 blank_frame) ada_streaming) =
    emitted ada_streaming ++
    [transcript "c" (VInt 0) (VStr "   ") (VBool true) (VStr "Ada") VNone VNone].
Proof. vm_compute. reflexivity. Qed.

(** The command-line client trims first: a text of ASCII white space only
    writes nothing. *)
Lemma cli_blank_text_suppressed `{PyLib} (message : string) (w : world)
    (top d u : list (string * value)) (text : string) :
  loads message = inr (VDict top) →
  dict_lookup "data" top = Some (VDict d) →
  dict_lookup "utterance" d = Some (VDict u) →
  dict_lookup "text" u = Some (VStr text) →
  Cli.strip text = "" →
  exec (Cli.on_message message) w = w ∧ outcome (Cli.on_message message) w = Return tt.
Proof.
  intros Hl Hd Hu Ht Hs. unfold Cli.on_message, Cli.py_strip. run_prims.
  rewrite Hl. simpl. destruct (eq_str _ _); [|done].
  simpl. rewrite Hd. simpl. rewrite Hu. simpl. rewrite Ht. simpl. by rewrite Hs.
Qed.

Example cli_blank_frame :
  exec (Cli.on_message blank_frame) initial = initial.
Proof. vm_compute. reflexivity. Qed.

(** Frames are handled alike in two states that differ in the log only. *)
Lemma frame_step_ignores_stdout `{PyLib} (h : nat) (message : string) (w1 w2 : world) :
  active_sessions w1 = active_sessions w2 → sockets w1 = sockets w2 →
  emitted w1 = emitted w2 →
  active_sessions (step (WsMessage h message) w1) =
    active_sessions (step (WsMessage h message) w2) ∧
  sockets (step (WsMessage h message) w1) = sockets (step (WsMessage h message) w2) ∧
  emitted (step (WsMessage h message) w1) = emitted (step (WsMessage h message) w2).
Proof.
  intros Hs Hk He. unfold step, callback. rewrite Hk.
  destruct (sockets w2 !! h) as [a|]; [|done].
  destruct (running a && is_connected (sock a)); [|done].
  destruct (on_message_keeps_state (ws_client a) message w1) as (-> & -> & _).
  destruct (on_message_keeps_state (ws_client a) message w2) as (-> & -> & _).
  split; [done|]. split; [done|].
  unfold on_message. run_prims.
  repeat (simpl; rewrite ?Hs, ?He; try done; branch).
Qed.

Lemma frames_ignore_stdout `{PyLib} (h : nat) (frames : list string) (w1 w2 : world) :
  active_sessions w1 = active_sessions w2 → sockets w1 = sockets w2 →
  emitted w1 = emitted w2 →
  emitted (run (WsMessage h <$> frames) w1) = emitted (run (WsMessage h <$> frames) w2).
Proof.
  revert w1 w2. induction frames as [|m frames IH]; intros w1 w2 Hs Hk He; [done|].
  destruct (frame_step_ignores_stdout h m w1 w2 Hs Hk He) as (Hs' & Hk' & He').
  simpl. by apply IH.
Qed.

(** The command-line client has no handler around [json.loads]: there the
    exception leaves [on_message], and it is the WebSocket library that
    decides what happens to it. *)
Lemma cli_undecodable_frame_raises `{PyLib} (message : string) (e : exn) (w : world) :
  loads message = inl e →
  outcome (Cli.on_message message) w = Raise e ∧ exec (Cli.on_message message) w = w.
Proof. intros Hl. unfold Cli.on_message. run_prims. by rewrite Hl. Qed.

(** C4 as amended: a frame that [json.loads] rejects is absorbed by the
    bridge's [on_message]: the handler returns normally, prints one line and
    changes nothing else.  The stream goes on: the handle, the registry and
    the events are as they were, any frames that follow on the handle emit
    what they would have emitted had the bad frame never arrived, and a
    transcript frame with a text that follows it on a connected handle is
    delivered to the client the handle belongs to, as one [transcript]
    event.  The handler of the command-line client does not absorb such a
    frame: the exception of [json.loads] leaves it, and nothing is
    written. *)
Theorem undecodable_frame_absorbed `{PyLib} (client_sid message : string) (e : exn)
    (w : world) :
  loads message = inl e →
  outcome (on_message client_sid message) w = Return tt ∧
  (∃ line, exec (on_message client_sid message) w = set_stdout (λ out, out ++ [line]) w) ∧
  (∀ h later,
     sockets (step (WsMessage h message) w) = sockets w ∧
     active_sessions (step (WsMessage h message) w) = active_sessions w ∧
     emitted (step (WsMessage h message) w) = emitted w ∧
     emitted (run (WsMessage h message :: (WsMessage h <$> later)) w) =
     emitted (run (WsMessage h <$> later) w)) ∧
  (∀ h a later top d u text,
     sockets w !! h = Some a → running a = true → sock a = Connected →
     loads later = inr (VDict top) →
     dict_lookup "type" top = Some (VStr "transcript") →
     dict_lookup "data" top = Some (VDict d) →
     dict_lookup "utterance" d = Some (VDict u) →
     dict_lookup "text" u = Some text →
     truthy text = true →
     emitted (run [WsMessage h message; WsMessage h later] w) =
       emitted w ++
       [transcript (ws_client a)
          (default (VInt 0) (dict_lookup "speaker" u))
          text
          (default (VBool false) (dict_lookup "is_final" d))
          (display_name (active_sessions w !! ws_client a)
                        (default (VInt 0) (dict_lookup "speaker" u)))
          (default VNone (dict_lookup "start" u))
          (default VNone (dict_lookup "end" u))]) ∧
  outcome (Cli.on_message message) w = Raise e ∧
  exec (Cli.on_message message) w = w.
Proof.
  intros Hl.
  assert (Hexec : ∀ sid, ∃ line,
            exec (on_message sid message) w = set_stdout (λ out, out ++ [line]) w).
  { intros sid. unfold on_message. run_prims. rewrite Hl. simpl.
    destruct (is_JSONDecodeError e); eexists; reflexivity. }
  assert (Hstep : ∀ h,
            sockets (step (WsMessage h message) w) = sockets w ∧
            active_sessions (step (WsMessage h message) w) = active_sessions w ∧
            emitted (step (WsMessage h message) w) = emitted w).
  { intros h. unfold step, callback.
    destruct (sockets w !! h) as [a|]; [|done].
    destruct (running a && is_connected (sock a)); [|done].
    by destruct (Hexec (ws_client a)) as [line ->]. }
  split; [apply on_message_returns|]. split; [apply Hexec|].
  split; [|split].
  - intros h later. destruct (Hstep h) as (Hk & Hs & He).
    repeat split; try done. by apply frames_ignore_stdout.
  - intros h a later top d u text Ha Hrun Hsock Hlater Hty Hd Hu Ht Htr.
    destruct (Hstep h) as (Hk & Hs & He).
    change (run [WsMessage h message; WsMessage h later] w)
      with (step (WsMessage h later) (step (WsMessage h message) w)).
    destruct (frame_step_ignores_stdout h later _ w Hs Hk He) as (_ & _ & ->).
    unfold step, callback. rewrite Ha, Hrun, Hsock. simpl.
    unfold on_message. run_prims.
    rewrite Hlater. simpl. rewrite Hty. simpl. rewrite Hd. simpl. rewrite Hu. simpl.
    rewrite Ht. simpl. rewrite Htr. reflexivity.
  - by apply cli_undecodable_frame_raises.
Qed.

(** A frame cut short, then the frame of the end-to-end scenario, on the
    handle of a client that streams under the label Ada. *)
Lemma undecodable_frame_absorbed_witness :
  emitted (run [WsMessage 0 "{oops"; WsMessage 0 transcript_frame] ada_streaming) =
    emitted ada_streaming ++
    [transcript "c" (VInt 0) (VStr "he") (VBool false) (VStr "Ada")
                (VFloat 1 (-1)) (VFloat 4 (-1))].
Proof.
  destruct (loads "{oops") as [e|v] eqn:Hbad; [|vm_compute in Hbad; discriminate].
  exact (proj1 (proj2 (proj2 (proj2
           (undecodable_frame_absorbed "c" "{oops" e ada_streaming Hbad))))
           0%nat
           {| ws_url := VStr "wss://x"; ws_client := "c"; sock := Connected;
              running := true; sent := [] |}
           transcript_frame
           [("type", VStr "transcript");
            ("data", VDict [("is_final", VBool false);
                            ("utterance",
                             VDict [("text", VStr "he"); ("speaker", VInt 0);
                                    ("start", VFloat 1 (-1)); ("end", VFloat 4 (-1))])])]
           [("is_final", VBool false);
            ("utterance", VDict [("text", VStr "he"); ("speaker", VInt 0);
                                 ("start", VFloat 1 (-1)); ("end", VFloat 4 (-1))])]
           [("text", VStr "he"); ("speaker", VInt 0);
            ("start", VFloat 1 (-1)); ("end", VFloat 4 (-1))]
           (VStr "he")
           eq_refl eq_refl eq_refl eq_refl eq_refl eq_refl eq_refl eq_refl eq_refl).
Defined.

(** C4 as stated fails for the command-line client: [json.loads] raises on
    a frame cut short, and the exception leaves [on_message]. *)
Lemma cli_decode_error_escapes :
  outcome (Cli.on_message "{oops") initial ≠ Return tt ∧
  ∃ msg, outcome (Cli.on_message "{oops") initial = Raise (JSONDecodeError msg).
Proof. split; [vm_compute; discriminate | eexists; vm_compute; reflexivity]. Qed.

(** C9 as amended: a frame whose type is not transcript (voice activity,
    error, anything else) leaves [on_message] without any event and without
    a trace; it is never turned into a transcript.  The [error] events the
    client gets from upstream are those of [on_error], one per error the
    transport reports. *)
Theorem other_frames_dropped `{PyLib} (client_sid message : string) (w : world)
    (top : list (string * value)) :
  loads message = inr (VDict top) →
  eq_str (default VNone (dict_lookup "type" top)) "transcript" = false →
  exec (on_message client_sid message) w = w ∧
  ∀ error,
    emitted (exec (on_error client_sid error) w) =
      emitted w ++ [{| ev_name := "error";
                       ev_data := VDict [("message", VStr (str_exn error))];
                       ev_room := client_sid |}].
Proof.
  intros Hl Hty. split; [|done].
  unfold on_message. run_prims. rewrite Hl. simpl. by rewrite Hty.
Qed.

Lemma other_frames_dropped_witness :
  exec (on_message "c" speech_start_frame) ada_streaming = ada_streaming.
Proof.
  exact (proj1 (other_frames_dropped "c" speech_start_frame ada_streaming
                  [("type", VStr "speech_start");
                   ("data", VDict [("time", VFloat 15 (-1))])]
                  eq_refl eq_refl)).
Defined.

(** C9 as stated fails: a voice-activity frame and an upstream error frame
    arrive on a streaming handle, and the client gets no event for either. *)
Lemma activity_and_error_frames_not_forwarded :
  emitted (step (WsMessage 0 speech_start_frame) ada_streaming) = emitted ada_streaming ∧
  emitted (step (WsMessage 0 error_frame) ada_streaming) = emitted ada_streaming.
Proof. split; vm_compute; reflexivity. Qed.

(** ** Starting a stream: [handle_start_stream] and the session thread *)

(** [handle_start_stream] creates and closes no socket. *)
Lemma start_stream_keeps_sockets (client_sid : string) (config : value) (w : world) :
  sockets (exec (handle_start_stream client_sid config) w) = sockets w.
Proof. unfold handle_start_stream. run_prims. crunch. Qed.



(** [connect_to_gladia_websocket] adds one socket and closes none. *)
Lemma connect_adds_socket `{PyLib} (client_sid : string) (ws_url : value) (w : world) :
  let w' := exec (connect_to_gladia_websocket client_sid ws_url) w in
  sockets w' =
    sockets w ++ [{| ws_url := ws_url; ws_client := client_sid; sock := Connecting;
                     running := true; sent := [] |}] ∧
  (ws <$> active_sessions w' !! client_sid) = Some (Some (length (sockets w))).
Proof.
  unfold connect_to_gladia_websocket. run_prims. simpl. split.
  - destruct (active_sessions w !! client_sid); simpl; branch; simpl;
      by rewrite (alter_app_r_alt _ _ _ (length (sockets w))), Nat.sub_diag.
  - destruct (active_sessions w !! client_sid); simpl; branch; simpl;
      by rewrite lookup_insert_eq.
Qed.




(** On the way from a start command to the new socket, every socket there
    was is still there, in the state it was in. *)
Lemma restart_never_closes `{PyLib} (client_sid : string) (config ws_url : value)
    (w : world) (h : nat) (a : WebSocketApp) :
  sockets w !! h = Some a →
  let w' := exec (connect_to_gladia_websocket client_sid ws_url)
                 (exec (handle_start_stream client_sid config) w) in
  sockets w' !! h = Some a ∧
  sock <$> sockets w' !! length (sockets w) = Some Connecting ∧
  h ≠ length (sockets w).
Proof.
  intros Ha w'. subst w'.
  destruct (connect_adds_socket client_sid ws_url
              (exec (handle_start_stream client_sid config) w)) as [-> _].
  rewrite start_stream_keeps_sockets.
  pose proof (lookup_lt_Some _ _ _ Ha) as Hlt.
  split; [by rewrite lookup_app_l | split; [|lia]].
  by rewrite lookup_app_r, Nat.sub_diag.
Qed.

(** C1, at a start received while streaming: nothing on the way from
    [handle_start_stream] to [connect_to_gladia_websocket] closes the handle
    in use.  After the second handshake the client has two open handles; the
    registry knows only the newer one, so stop and disconnect can no longer
    reach the older, which stays open after them. *)
Theorem restart_leaves_prior_handle_open :
  let restarted :=
    run [StartStream "c" VNone; PostAnswered 0 session_created; WsOpen 0;
         StartStream "c" VNone; PostAnswered 0 session_created; WsOpen 1] initial in
  open_handles "c" restarted = [0; 1]%nat ∧
  (ws <$> active_sessions restarted !! "c") = Some (Some 1%nat) ∧
  open_handles "c" (run [StopStream "c"; Disconnect "c"] restarted) = [0%nat].
Proof. vm_compute. repeat split; reflexivity. Qed.

(** ** Teardown: [handle_stop_stream] and [handle_disconnect] *)

Lemma stop_stream_effect (client_sid : string) (w : world) :
  let w' := exec (handle_stop_stream client_sid) w in
  outcome (handle_stop_stream client_sid) w = Return tt ∧
  active_sessions w' = delete client_sid (active_sessions w) ∧
  sockets w' = closed_for client_sid w ∧
  emitted w' = emitted w ++ [stream_stopped client_sid] ∧
  stdout w' = stdout w.
Proof.
  unfold handle_stop_stream, closed_for. run_prims. simpl.
  destruct (active_sessions w !! client_sid) as [[c [h|]]|] eqn:He; simpl;
    rewrite ?He; simpl; repeat split; by rewrite ?delete_id.
Qed.

Lemma disconnect_effect (sid : string) (w : world) :
  let w' := exec (handle_disconnect sid) w in
  outcome (handle_disconnect sid) w = Return tt ∧
  active_sessions w' = delete sid (active_sessions w) ∧
  sockets w' = closed_for sid w ∧
  emitted w' = emitted w.
Proof.
  unfold handle_disconnect, closed_for. run_prims. simpl.
  destruct (active_sessions w !! sid) as [[c [h|]]|] eqn:He; simpl;
    rewrite ?He; simpl; repeat split; by rewrite ?delete_id.
Qed.

Lemma closed_for_absent (client_sid : string) (w : world) :
  active_sessions w !! client_sid = None → closed_for client_sid w = sockets w.
Proof. unfold closed_for. by intros ->. Qed.

(** C5 as amended: teardown is idempotent on the registry and on the
    handles.  Stop and disconnect never raise; a stop for a client without
    entry changes neither the registry nor any socket; after a stop, a second
    stop or a disconnect changes neither the registry nor any socket.  Every
    stop answers with one [stream_stopped], so a second stop emits a second
    one; a disconnect emits nothing. *)
Theorem teardown_idempotent (client_sid : string) (w : world) :
  let w1 := exec (handle_stop_stream client_sid) w in
  let w2 := exec (handle_stop_stream client_sid) w1 in
  let w3 := exec (handle_disconnect client_sid) w1 in
  (outcome (handle_stop_stream client_sid) w = Return tt ∧
   outcome (handle_stop_stream client_sid) w1 = Return tt ∧
   outcome (handle_disconnect client_sid) w1 = Return tt) ∧
  (active_sessions w !! client_sid = None →
   active_sessions w1 = active_sessions w ∧ sockets w1 = sockets w ∧
   emitted w1 = emitted w ++ [stream_stopped client_sid]) ∧
  (active_sessions w2 = active_sessions w1 ∧ sockets w2 = sockets w1 ∧
   emitted w2 = emitted w1 ++ [stream_stopped client_sid]) ∧
  (active_sessions w3 = active_sessions w1 ∧ sockets w3 = sockets w1 ∧
   emitted w3 = emitted w1).
Proof.
  intros w1 w2 w3.
  destruct (stop_stream_effect client_sid w) as (Ho & Hs & Hk & He & _).
  destruct (stop_stream_effect client_sid w1) as (Ho1 & Hs1 & Hk1 & He1 & _).
  destruct (disconnect_effect client_sid w1) as (Ho3 & Hs3 & Hk3 & He3).
  fold w1 in Hs, Hk, He. fold w2 in Hs1, Hk1, He1. fold w3 in Hs3, Hk3, He3.
  assert (Hgone : active_sessions w1 !! client_sid = None)
    by (rewrite Hs; apply lookup_delete_eq).
  repeat split; try assumption.
  - rewrite Hs. by apply delete_id.
  - rewrite Hk. by apply closed_for_absent.
  - rewrite Hs1. by apply delete_id.
  - rewrite Hk1. by apply closed_for_absent.
  - rewrite Hs3. by apply delete_id.
  - rewrite Hk3. by apply closed_for_absent.
Qed.

(** A stop from a client that has no entry, while another one streams. *)
Lemma teardown_idempotent_witness :
  let w1 := exec (handle_stop_stream "d") ada_streaming in
  active_sessions w1 = active_sessions ada_streaming ∧
  sockets w1 = sockets ada_streaming ∧
  emitted w1 = emitted ada_streaming ++ [stream_stopped "d"].
Proof.
  assert (Habsent : active_sessions ada_streaming !! "d" = None)
    by (vm_compute; reflexivity).
  exact (proj1 (proj2 (teardown_idempotent "d" ada_streaming)) Habsent).
Defined.

(** C5 as stated fails: the second of two stops emits [stream_stopped]
    again. *)
Lemma second_stop_emits_again :
  emitted (run [StopStream "c"; StopStream "c"] ada_streaming) ≠
    emitted (run [StopStream "c"] ada_streaming) ∧
  emitted (run [StopStream "c"; StopStream "c"] ada_streaming) =
    emitted ada_streaming ++ [stream_stopped "c"; stream_stopped "c"].
Proof. vm_compute. split; [discriminate | reflexivity]. Qed.

(** ** Audio: [handle_audio_data] *)

(** The handler never raises and never touches the registry, the threads
    or the state of a connection. *)
Lemma audio_data_keeps_state `{PyLib} (client_sid : string) (data : value)
    (fault : option exn) (w : world) :
  let w' := exec (handle_audio_data client_sid data fault) w in
  outcome (handle_audio_data client_sid data fault) w = Return tt ∧
  active_sessions w' = active_sessions w ∧
  sock <$> sockets w' = sock <$> sockets w ∧
  threads w' = threads w ∧ posted w' = posted w.
Proof.
  unfold handle_audio_data, py_b64decode. run_prims.
  repeat (simpl; first [ done | branch ]).
  all: repeat split; try done.
  all: simpl; rewrite (list_fmap_alter sock _ id);
    [by rewrite list_alter_id | by apply Forall_forall].
Qed.

(** C8 as amended: an audio chunk from a client that is not streaming
    changes nothing and reaches nobody; it is logged when the client has no
    registry entry, and passes without a trace when the entry is there but
    holds no connected handle.  From a streaming client, the decoded bytes
    are appended as one frame to what its handle has sent; if the send fails
    instead, the client gets one [error] event, nothing is sent, and neither
    the registry nor the connection changes state. *)
Theorem audio_forwarding `{PyLib} (client_sid : string) (data : value)
    (fault : option exn) (w : world) :
  let w' := exec (handle_audio_data client_sid data fault) w in
  outcome (handle_audio_data client_sid data fault) w = Return tt ∧
  (streaming_on w client_sid = None →
   active_sessions w' = active_sessions w ∧ sockets w' = sockets w ∧
   emitted w' = emitted w ∧
   stdout w' =
     match active_sessions w !! client_sid with
     | Some _ => stdout w
     | None => stdout w ++ [[Lit "No active session for "; Lit client_sid]]
     end) ∧
  (∀ h kvs audio audio_bytes,
     streaming_on w client_sid = Some h →
     data = VDict kvs → dict_lookup "audio" kvs = Some (VStr audio) →
     b64decode audio = inr audio_bytes →
     match fault with
     | None =>
         sockets w' = alter (λ a, with_sent (sent a ++ [audio_bytes]) a) h (sockets w) ∧
         emitted w' = emitted w ∧ active_sessions w' = active_sessions w
     | Some e =>
         sockets w' = sockets w ∧
         emitted w' = emitted w ++ [audio_error client_sid e] ∧
         active_sessions w' = active_sessions w
     end).
Proof.
  intros w'. subst w'. split; [apply audio_data_keeps_state|]. split.
  - unfold streaming_on, handle_audio_data. run_prims. simpl.
    destruct (active_sessions w !! client_sid) as [[c [h|]]|]; simpl; [|done..].
    destruct (sockets w !! h) as [a|]; simpl; [|done].
    by destruct (sock a).
  - intros h kvs audio audio_bytes Hs -> Hk Hb.
    unfold streaming_on in Hs. unfold handle_audio_data, py_b64decode. run_prims. simpl.
    destruct (active_sessions w !! client_sid) as [[c [h'|]]|]; simpl in *; [|done..].
    destruct (sockets w !! h') as [a|] eqn:Ha; simpl in *; [|done].
    destruct (sock a) eqn:Hsock; simpl in *; try done.
    injection Hs as ->. rewrite Hk. simpl. rewrite Hb. simpl.
    destruct fault; simpl; [done|]. by rewrite Ha; simpl; rewrite Hsock.
Qed.

(** One chunk from the client streaming as Ada, sent through and then sent
    into a connection that breaks. *)
Lemma audio_forwarding_witness :
  sockets (step (AudioData "c" (VDict [("audio", VStr "aGVsbG8=")]) None) ada_streaming) =
    [{| ws_url := VStr "wss://x"; ws_client := "c"; sock := Connected; running := true;
        sent := [["h"; "e"; "l"; "l"; "o"]%byte] |}] ∧
  emitted (step (AudioData "c" (VDict [("audio", VStr "aGVsbG8=")])
                   (Some (Exception "Connection is already closed.")))
             ada_streaming) =
    emitted ada_streaming ++
    [audio_error "c" (Exception "Connection is already closed.")] ∧
  stdout (step (AudioData "d" (VDict [("audio", VStr "aGVsbG8=")]) None) ada_streaming) =
    stdout ada_streaming ++ [[Lit "No active session for "; Lit "d"]].
Proof.
  assert (Hon : streaming_on ada_streaming "c" = Some 0%nat) by (vm_compute; reflexivity).
  assert (Hoff : streaming_on ada_streaming "d" = None) by (vm_compute; reflexivity).
  assert (Hb : b64decode "aGVsbG8=" = inr ["h"; "e"; "l"; "l"; "o"]%byte)
    by (vm_compute; reflexivity).
  split; [|split].
  - exact (proj1 (proj2 (proj2 (audio_forwarding "c" (VDict [("audio", VStr "aGVsbG8=")])
                                  None ada_streaming))
                    0%nat [("audio", VStr "aGVsbG8=")] "aGVsbG8=" _
                    Hon eq_refl eq_refl Hb)).
  - exact (proj1 (proj2 (proj2 (proj2 (audio_forwarding "c"
                                         (VDict [("audio", VStr "aGVsbG8=")])
                                         (Some (Exception "Connection is already closed."))
                                         ada_streaming))
                           0%nat [("audio", VStr "aGVsbG8=")] "aGVsbG8=" _
                           Hon eq_refl eq_refl Hb))).
  - exact (proj2 (proj2 (proj2 (proj1 (proj2 (audio_forwarding "d"
                                                (VDict [("audio", VStr "aGVsbG8=")])
                                                None ada_streaming)) Hoff)))).
Defined.

(** C8 as stated fails: a client whose handshake was rejected still has its
    entry, without handle; its audio chunk is dropped without a log line. *)
Lemma audio_dropped_without_log :
  let w := run [StartStream "c" VNone; PostAnswered 0 (Response 401 "Unauthorized")]
               initial in
  streaming_on w "c" = None ∧
  stdout (step (AudioData "c" (VDict [("audio", VStr "aGVsbG8=")]) None) w) = stdout w.
Proof. split; vm_compute; reflexivity. Qed.

(** ** The end-to-end scenarios *)

(** Start with no languages and partial results on; the handshake returns an
    id and a URL; the connection opens; one audio chunk goes up; one
    transcript frame comes down. *)
Example scenario_transcript :
  let w := run [StartStream "c" (VDict [("languages", VList []);
                                        ("partial_results", VBool true)]);
                PostAnswered 0 session_created;
                WsOpen 0;
                AudioData "c" (VDict [("audio", VStr "aGVsbG8=")]) None;
                WsMessage 0 transcript_frame] initial in
  emitted w =
    [{| ev_name := "stream_started"; ev_data := VDict [("status", VStr "ready")];
        ev_room := "c" |};
     transcript "c" (VInt 0) (VStr "he") (VBool false) VNone
                (VFloat 1 (-1)) (VFloat 4 (-1))] ∧
  sent <$> sockets w = [[["h"; "e"; "l"; "l"; "o"]%byte]] ∧
  open_handles "c" w = [0%nat].
Proof. vm_compute. repeat split; reflexivity. Qed.

(** The handshake is answered 401: no socket is ever created, and the
    client gets one [error] event that holds the status code. *)
Example scenario_unauthorized :
  let w := run [StartStream "c" (VDict [("languages", VList []);
                                        ("partial_results", VBool true)]);
                PostAnswered 0 (Response 401 "Unauthorized")] initial in
  sockets w = [] ∧
  emitted w =
    [{| ev_name := "stream_started"; ev_data := VDict [("status", VStr "ready")];
        ev_room := "c" |};
     {| ev_name := "error";
        ev_data := VDict [("message",
                           VStr "Failed to create session: 401 - Unauthorized")];
        ev_room := "c" |}].
Proof. vm_compute. split; reflexivity. Qed.

(** * Further properties of the bridge *)

(** ** How sockets evolve *)

Lemma evolves_refl (a : WebSocketApp) : evolves a a.
Proof. by repeat split. Qed.

Lemma evolves_trans (a b c : WebSocketApp) : evolves a b → evolves b c → evolves a c.
Proof.
  intros (Hc1 & Hu1 & Hp1 & Hk1) (Hc2 & Hu2 & Hp2 & Hk2). repeat split.
  - congruence.
  - congruence.
  - by etrans.
  - destruct (Hk1 H) as [Hb _]. by destruct (Hk2 Hb).
  - destruct (Hk1 H) as [Hb Hs]. destruct (Hk2 Hb) as [_ Hs']. congruence.
Qed.

Lemma sockets_evolve_refl (l : list WebSocketApp) : sockets_evolve l l.
Proof. intros h a Ha. exists a. split; [done | apply evolves_refl]. Qed.

Lemma sockets_evolve_trans (l1 l2 l3 : list WebSocketApp) :
  sockets_evolve l1 l2 → sockets_evolve l2 l3 → sockets_evolve l1 l3.
Proof.
  intros H12 H23 h a Ha. destruct (H12 h a Ha) as (b & Hb & Hab).
  destruct (H23 h b Hb) as (c & Hc & Hbc). exists c. split; [done|].
  by eapply evolves_trans.
Qed.

Lemma sockets_evolve_app (l new : list WebSocketApp) : sockets_evolve l (l ++ new).
Proof.
  intros h a Ha. exists a. split; [|apply evolves_refl].
  by apply lookup_app_l_Some.
Qed.

Lemma sockets_evolve_alter (f : WebSocketApp → WebSocketApp) (i : nat)
    (l : list WebSocketApp) :
  (∀ a, l !! i = Some a → evolves a (f a)) → sockets_evolve l (alter f i l).
Proof.
  intros Hf h a Ha. destruct (decide (i = h)) as [->|Hne].
  - exists (f a). split; [by rewrite list_lookup_alter_eq, Ha | by apply Hf].
  - exists a. split; [by rewrite list_lookup_alter_ne | apply evolves_refl].
Qed.

Lemma evolves_with_running (b : bool) (a : WebSocketApp) : evolves a (with_running b a).
Proof. by repeat split. Qed.

Lemma evolves_close (a : WebSocketApp) : evolves a (with_sock Closed a).
Proof. by repeat split. Qed.

Lemma evolves_open (a : WebSocketApp) :
  sock a ≠ Closed → evolves a (with_sock Connected a).
Proof. intros Hn. repeat split; simpl; done. Qed.

Lemma evolves_send (data : bytes) (a : WebSocketApp) :
  sock a ≠ Closed → evolves a (with_sent (sent a ++ [data]) a).
Proof. intros Hn. repeat split; simpl; try done. by apply prefix_app_r. Qed.

(** ** What each handler may touch *)

Ltac split_footprint := unfold footprint; split; [|split; [|split]].

Lemma footprint_same (sid : string) (w w' : world) :
  active_sessions w' = active_sessions w → sockets w' = sockets w →
  emitted w' = emitted w → footprint sid w w'.
Proof.
  intros Hs Hk He. split_footprint.
  - intros. by rewrite Hs.
  - exists []. split; [by rewrite He, app_nil_r | constructor].
  - rewrite Hk. apply sockets_evolve_refl.
  - intros e' h He' Hh. left. exists e'. by rewrite <- Hs.
Qed.

Lemma footprint_teardown (sid : string) (w w' : world) (new : list emission) :
  active_sessions w' = delete sid (active_sessions w) →
  sockets w' = closed_for sid w →
  emitted w' = emitted w ++ new → Forall (λ e, ev_room e = sid) new →
  footprint sid w w'.
Proof.
  intros Hs Hk He Hnew. split_footprint.
  - intros sid' Hne. by rewrite Hs, lookup_delete_ne.
  - by exists new.
  - rewrite Hk. unfold closed_for. destruct (_ ≫= ws); [|apply sockets_evolve_refl].
    apply sockets_evolve_alter. intros. apply evolves_close.
  - intros e' h He'. by rewrite Hs, lookup_delete_eq in He'.
Qed.

Lemma footprint_connect (sid : string) : ∀ w, footprint sid w (exec (handle_connect sid) w).
Proof. intros w. by apply footprint_same. Qed.

Lemma footprint_disconnect (sid : string) (w : world) :
  footprint sid w (exec (handle_disconnect sid) w).
Proof.
  destruct (disconnect_effect sid w) as (_ & Hs & Hk & He).
  apply (footprint_teardown sid w _ []); [done | done | by rewrite app_nil_r | constructor].
Qed.

Lemma footprint_stop_stream (sid : string) (w : world) :
  footprint sid w (exec (handle_stop_stream sid) w).
Proof.
  destruct (stop_stream_effect sid w) as (_ & Hs & Hk & He & _).
  apply (footprint_teardown sid w _ [stream_stopped sid]); try done.
  by repeat constructor.
Qed.

Lemma footprint_on_message `{PyLib} (sid message : string) (w : world) :
  footprint sid w (exec (on_message sid message) w).
Proof.
  destruct (on_message_keeps_state sid message w) as (Hs & Hk & _).
  destruct (on_message_emits sid message w) as [He | (sp & tx & fi & t0 & t1 & _ & He)].
  - by apply footprint_same.
  - split_footprint.
    + intros. by rewrite Hs.
    + eexists. split; [exact He | by repeat constructor].
    + rewrite Hk. apply sockets_evolve_refl.
    + intros e' h He' Hh. left. exists e'. by rewrite <- Hs.
Qed.

Lemma footprint_on_error (sid : string) (error : exn) (w : world) :
  footprint sid w (exec (on_error sid error) w).
Proof.
  split_footprint; simpl.
  - done.
  - eexists. split; [reflexivity | by repeat constructor].
  - apply sockets_evolve_refl.
  - intros e' h He' Hh. left. by exists e'.
Qed.

Lemma on_close_effect (sid : string) (c m : value) (w : world) :
  let w' := exec (on_close sid c m) w in
  active_sessions w' = delete sid (active_sessions w) ∧ sockets w' = sockets w ∧
  emitted w' = emitted w ∧ threads w' = threads w ∧ posted w' = posted w.
Proof.
  unfold on_close. run_prims. simpl.
  destruct (active_sessions w !! sid) eqn:He; simpl; rewrite ?He; simpl;
    repeat split; by rewrite ?delete_id.
Qed.

(** What [handle_start_stream] does: nothing but print when the config is
    not a dict, else one entry written, one thread started, one event. *)
Lemma start_stream_effect (sid : string) (config : value) (w : world) :
  let w' := exec (handle_start_stream sid config) w in
  sockets w' = sockets w ∧ posted w' = posted w ∧
  (∀ sid', sid' ≠ sid → active_sessions w' !! sid' = active_sessions w !! sid') ∧
  ((outcome (handle_start_stream sid config) w =
      Raise (AttributeError (type_name config) "get") ∧
    active_sessions w' = active_sessions w ∧ emitted w' = emitted w ∧
    threads w' = threads w) ∨
   (outcome (handle_start_stream sid config) w = Return tt ∧
    (∃ c, active_sessions w' !! sid =
            Some (Build_session (Some c) (active_sessions w !! sid ≫= ws)) ∧
          threads w' =
            threads w ++ [Build_thread sid (partial_results c) (languages c)
                                       (code_switching c) (custom_vocabulary c)]) ∧
    emitted w' =
      emitted w ++ [{| ev_name := "stream_started";
                       ev_data := VDict [("status", VStr "ready")];
                       ev_room := sid |}])).
Proof.
  unfold handle_start_stream. run_prims.
  destruct config; simpl; try destruct (active_sessions w !! sid) as [entry|] eqn:He;
    simpl; (split; [done|]); (split; [done|]); (split; [try done|]).
  all: lazymatch goal with
       | |- ∀ _, _ => intros sid' Hne; by rewrite lookup_alter_ne, ?lookup_insert_ne
       | |- _ ∨ _ =>
           first
             [ by left
             | right; split; [done|]; split; [|done]; eexists;
               split; [by rewrite lookup_alter_eq, ?lookup_insert_eq, ?He | reflexivity] ]
       end.
Qed.

Lemma alter_last {A} (f : A → A) (l : list A) (x : A) :
  alter f (length l) (l ++ [x]) = l ++ [f x].
Proof. by rewrite (alter_app_r_alt _ _ _ (length l)), Nat.sub_diag. Qed.

(** [v and len(v) > 0] reads its argument and nothing else. *)
Lemma and_len_positive_pure (v : value) (w : world) :
  ∃ r, and_len_positive v w = (r, w).
Proof.
  unfold and_len_positive, py_len. run_monad.
  destruct (truthy v); [|by eexists]. destruct v; simpl; by eexists.
Qed.

(** [connect_to_gladia_websocket] in full: the socket and the registry
    entry are written whether or not [run_forever] then raises. *)
Lemma connect_effect `{PyLib} (client_sid : string) (ws_url : value) (w : world) :
  connect_to_gladia_websocket client_sid ws_url w =
  (match refuses ws_url with Some msg => Raise (Exception msg) | None => Return tt end,
   set_sockets (λ l, l ++ [{| ws_url := ws_url; ws_client := client_sid; sock := Connecting;
                              running := true; sent := [] |}])
     (set_sessions <[client_sid := Build_session (active_sessions w !! client_sid ≫= config)
                                                 (Some (length (sockets w)))]> w)).
Proof.
  unfold connect_to_gladia_websocket. run_prims. simpl.
  destruct (active_sessions w !! client_sid); simpl;
    rewrite alter_last, list_lookup_middle by done; simpl;
    destruct (refuses ws_url); unfold set_sockets, set_sessions; simpl;
    by rewrite alter_last.
Qed.

(** What a session thread does, in one of three ways: it dies while
    building the payload; it posts and reports a failure; it posts and
    connects, reporting a failure if [run_forever] raises. *)
Lemma session_thread_effect `{PyLib} (sid : string) (pr l cs v : value)
    (r : post_result) (w : world) :
  let w' := exec (start_gladia_session sid pr l cs v r) w in
  (active_sessions w' = active_sessions w ∧ sockets w' = sockets w ∧
   emitted w' = emitted w ∧ posted w' = posted w ∧ stdout w' = stdout w) ∨
  (∃ p msg,
     posted w' = posted w ++ [VDict p] ∧ active_sessions w' = active_sessions w ∧
     sockets w' = sockets w ∧
     emitted w' =
       emitted w ++
       [{| ev_name := "error";
           ev_data := VDict [("message", VStr ("Failed to create session: " +:+ msg))];
           ev_room := sid |}]) ∨
  (∃ p url,
     posted w' = posted w ++ [VDict p] ∧
     emitted w' =
       emitted w ++
       match refuses url with
       | Some msg =>
           [{| ev_name := "error";
               ev_data := VDict [("message", VStr ("Failed to create session: " +:+ msg))];
               ev_room := sid |}]
       | None => []
       end ∧
     sockets w' =
       sockets w ++ [{| ws_url := url; ws_client := sid; sock := Connecting;
                        running := true; sent := [] |}] ∧
     active_sessions w' =
       <[sid := Build_session (active_sessions w !! sid ≫= config)
                              (Some (length (sockets w)))]> (active_sessions w)).
Proof.
  cbv zeta. unfold exec.
  remember (start_gladia_session sid pr l cs v r w) as res eqn:Hres.
  unfold start_gladia_session in Hres.
  set (l' := match l with VNone => VList [] | _ => l end) in Hres. clearbody l'.
  set (v' := match v with VNone => VList [] | _ => v end) in Hres. clearbody v'.
  run_monad.
  destruct (and_len_positive_pure l' w) as [[b1|e1] E1]; rewrite E1 in Hres;
    [|subst res; by left].
  destruct (and_len_positive_pure v' w) as [[b2|e2] E2]; rewrite E2 in Hres;
    [|subst res; by left].
  match type of Hres with
  | context [requests_post (VDict ?p)] => set (payload := p) in Hres; clearbody payload
  end.
  subst res.
  unfold requests_post, raise_for_status.
  run_prims.
  repeat (simpl; rewrite ?connect_effect;
          first [ by left
                | by right; left; eexists _, _
                | by right; right; eexists _, _; repeat split; try reflexivity;
                     match goal with Hq : refuses _ = _ |- _ => rewrite Hq end;
                     rewrite ?app_nil_r
                | branch ]).
Qed.

Lemma footprint_start_stream (sid : string) (config : value) (w : world) :
  footprint sid w (exec (handle_start_stream sid config) w).
Proof.
  destruct (start_stream_effect sid config w) as (Hk & _ & Hiso & Heff).
  split_footprint.
  - exact Hiso.
  - destruct Heff as [(_ & _ & He & _) | (_ & _ & He)].
    + exists []. split; [by rewrite He, app_nil_r | constructor].
    + eexists. split; [exact He | by repeat constructor].
  - rewrite Hk. apply sockets_evolve_refl.
  - intros e' h He' Hh. left.
    destruct Heff as [(_ & Hs & _) | (_ & (c & Hs & _) & _)].
    + exists e'. by rewrite <- Hs.
    + rewrite Hs in He'. injection He' as <-. simpl in Hh.
      destruct (active_sessions w !! sid) as [e|]; [|done]. by exists e.
Qed.

Lemma footprint_session_thread `{PyLib} (sid : string) (pr l cs v : value)
    (r : post_result) (w : world) :
  footprint sid w (exec (start_gladia_session sid pr l cs v r) w).
Proof.
  destruct (session_thread_effect sid pr l cs v r w)
    as [(Hs & Hk & He & _) | [(p & msg & _ & Hs & Hk & He) | (p & url & _ & He & Hk & Hs)]].
  - by apply footprint_same.
  - split_footprint.
    + intros. by rewrite Hs.
    + eexists. split; [exact He | by repeat constructor].
    + rewrite Hk. apply sockets_evolve_refl.
    + intros e' h He' Hh. left. exists e'. by rewrite <- Hs.
  - split_footprint.
    + intros sid' Hne. by rewrite Hs, lookup_insert_ne.
    + eexists. split; [exact He |]. destruct (refuses url); by repeat constructor.
    + rewrite Hk. apply sockets_evolve_app.
    + intros e' h He' Hh. right.
      rewrite Hs, lookup_insert_eq in He'. injection He' as <-. simpl in Hh.
      injection Hh as <-. eexists.
      split; [rewrite Hk; by apply list_lookup_middle | reflexivity].
Qed.

(** What [handle_audio_data] does to the sockets and the events. *)
Lemma audio_data_effect `{PyLib} (sid : string) (data : value) (fault : option exn)
    (w : world) :
  let w' := exec (handle_audio_data sid data fault) w in
  sockets_evolve (sockets w) (sockets w') ∧
  (emitted w' = emitted w ∨
   ∃ msg, emitted w' =
            emitted w ++
            [{| ev_name := "error";
                ev_data := VDict [("message", VStr ("Error sending audio: " +:+ msg))];
                ev_room := sid |}]).
Proof.
  unfold handle_audio_data, py_b64decode. run_prims.
  repeat (simpl; first [ by split; [apply sockets_evolve_refl | left]
                       | split; [apply sockets_evolve_refl | right; eexists; reflexivity]
                       | branch ]).
  all: split; [|by left].
  all: apply sockets_evolve_alter; intros a Ha; apply evolves_send.
  all: match goal with
       | Hs : sock <$> sockets _ !! _ = Some Connected |- _ =>
           rewrite Ha in Hs; simpl in Hs; injection Hs as Hs; by rewrite Hs
       end.
Qed.

Lemma footprint_audio_data `{PyLib} (sid : string) (data : value) (fault : option exn)
    (w : world) :
  footprint sid w (exec (handle_audio_data sid data fault) w).
Proof.
  destruct (audio_data_keeps_state sid data fault w) as (_ & Hs & _).
  destruct (audio_data_effect sid data fault w) as (Hk & He).
  split_footprint.
  - intros. by rewrite Hs.
  - destruct He as [He | [e He]].
    + exists []. split; [by rewrite He, app_nil_r | constructor].
    + eexists. split; [exact He | by repeat constructor].
  - exact Hk.
  - intros e' h He' Hh. left. exists e'. by rewrite <- Hs.
Qed.

Lemma footprint_trans_sockets (sid : string) (w w1 w' : world) :
  active_sessions w1 = active_sessions w → emitted w1 = emitted w →
  sockets_evolve (sockets w) (sockets w1) →
  footprint sid w1 w' → footprint sid w w'.
Proof.
  intros Hs He Hk (Hiso & Hnew & Hev & Hval). split_footprint.
  - intros. rewrite <- Hs. by apply Hiso.
  - by rewrite <- He.
  - by eapply sockets_evolve_trans.
  - intros e' h He' Hh. rewrite <- Hs. exact (Hval e' h He' Hh).
Qed.

(** Every step stays within the footprint of the client it is about; a
    step about nobody (an unknown thread or socket) does nothing. *)
Lemma step_footprint `{PyLib} (ev : event) (w : world) :
  match subject ev w with
  | Some sid => footprint sid w (step ev w)
  | None => step ev w = w
  end.
Proof.
  destruct ev; simpl.
  - apply footprint_connect.
  - apply footprint_disconnect.
  - apply footprint_start_stream.
  - apply footprint_audio_data.
  - apply footprint_stop_stream.
  - destruct (threads w !! k) as [t|]; simpl; [|done].
    eapply footprint_trans_sockets; [..|apply footprint_session_thread]; try done.
    apply sockets_evolve_refl.
  - unfold callback. destruct (sockets w !! h) as [a|] eqn:Ha; simpl; [|done].
    destruct (running a && is_connecting (sock a)) eqn:Hg;
      [|by apply footprint_same].
    split_footprint; simpl; try done.
    + exists []. split; [by rewrite app_nil_r | constructor].
    + apply sockets_evolve_alter. intros a' Ha'. apply evolves_open.
      rewrite Ha in Ha'. injection Ha' as <-.
      apply andb_prop in Hg as [_ Hc]. by destruct (sock a).
    + intros e' h' He' Hh. left. by exists e'.
  - unfold callback. destruct (sockets w !! h) as [a|] eqn:Ha; simpl; [|done].
    destruct (running a && is_connected (sock a)); [|by apply footprint_same].
    apply footprint_on_message.
  - unfold callback. destruct (sockets w !! h) as [a|] eqn:Ha; simpl; [|done].
    destruct (running a); [|by apply footprint_same].
    apply footprint_on_error.
  - unfold callback. destruct (sockets w !! h) as [a|] eqn:Ha; simpl; [|done].
    destruct (running a); [|by apply footprint_same].
    match goal with
    | |- footprint _ _ (exec _ ?w1) =>
        destruct (on_close_effect (ws_client a) close_status_code close_msg w1)
          as (Hs & Hk & He & _)
    end.
    split_footprint.
    + intros sid' Hne. by rewrite Hs, lookup_delete_ne.
    + exists []. split; [by rewrite He, app_nil_r | constructor].
    + rewrite Hk. simpl. apply sockets_evolve_alter. intros a' _.
      by repeat split.
    + intros e' h' He'. by rewrite Hs, lookup_delete_eq in He'.
Qed.

(** ** Invariants of the transition system *)

(** X1: a step changes the registry entry of no client but the one the
    event is about. *)
Theorem step_isolates_clients `{PyLib} (ev : event) (w : world) (sid : string) :
  subject ev w ≠ Some sid →
  active_sessions (step ev w) !! sid = active_sessions w !! sid.
Proof.
  intros Hne. pose proof (step_footprint ev w) as Hf.
  destruct (subject ev w) as [sid'|]; [|by rewrite Hf].
  destruct Hf as (Hiso & _). apply Hiso. congruence.
Qed.

Lemma step_isolates_clients_witness :
  active_sessions (step (StopStream "d") ada_streaming) !! "c" =
  active_sessions ada_streaming !! "c".
Proof. apply (step_isolates_clients (StopStream "d") ada_streaming "c"). discriminate. Defined.

(** X2: whatever a step emits is added after what was emitted before and
    is addressed to the client the event is about. *)
Theorem step_events_addressed `{PyLib} (ev : event) (w : world) :
  ∃ new, emitted (step ev w) = emitted w ++ new ∧
         Forall (λ e, subject ev w = Some (ev_room e)) new.
Proof.
  pose proof (step_footprint ev w) as Hf.
  destruct (subject ev w) as [sid|].
  - destruct Hf as (_ & (new & He & Hrooms) & _). exists new. split; [done|].
    eapply Forall_impl; [exact Hrooms|]. by intros e <-.
  - exists []. split; [by rewrite Hf, app_nil_r | constructor].
Qed.

Lemma step_sockets_evolve `{PyLib} (ev : event) (w : world) :
  sockets_evolve (sockets w) (sockets (step ev w)).
Proof.
  pose proof (step_footprint ev w) as Hf.
  destruct (subject ev w); [by destruct Hf as (_ & _ & Hk & _)|].
  rewrite Hf. apply sockets_evolve_refl.
Qed.

Lemma run_snoc `{PyLib} (evs : list event) (ev : event) (w : world) :
  run (evs ++ [ev]) w = step ev (run evs w).
Proof. unfold run. by rewrite foldl_app. Qed.

Lemma step_handles_valid `{PyLib} (ev : event) (w : world) :
  handles_valid w → handles_valid (step ev w).
Proof.
  intros Hv sid e h He Hh. pose proof (step_footprint ev w) as Hf.
  pose proof (step_sockets_evolve ev w) as Hk.
  assert (Hold : ∀ e0, active_sessions w !! sid = Some e0 → ws e0 = Some h →
                       ∃ a, sockets (step ev w) !! h = Some a ∧ ws_client a = sid).
  { intros e0 He0 Hh0. destruct (Hv sid e0 h He0 Hh0) as (a & Ha & Hc).
    destruct (Hk h a Ha) as (a' & Ha' & Hc' & _). exists a'. split; [done | congruence]. }
  destruct (subject ev w) as [sid'|] eqn:Hs.
  - destruct Hf as (Hiso & _ & _ & Hval).
    destruct (decide (sid = sid')) as [->|Hne].
    + destruct (Hval e h He Hh) as [(e0 & He0 & Hh0) | Hnew]; [by eapply Hold | done].
    + rewrite Hiso in He by done. by eapply Hold.
  - rewrite Hf in He. eapply Hold; [|done]. by rewrite Hf in *.
Qed.

(** X6: in every state the process can reach, a handle held in a client's
    registry entry exists and was created for that very client: no entry ever
    points at another client's connection. *)
Theorem registry_handles_valid `{PyLib} (evs : list event) :
  handles_valid (run evs initial).
Proof.
  induction evs as [|ev evs IH] using rev_ind.
  - intros sid e h He. cbn in He. by rewrite lookup_empty in He.
  - rewrite run_snoc. by apply step_handles_valid.
Qed.

(** ** The session thread: [start_gladia_session] *)

(** When [v and len(v) > 0] has a value, it is the truthiness of [v]. *)
Lemma and_len_positive_spec (v : value) (w : world) :
  and_len_positive v w = (Return (truthy v), w) ∨
  ∃ msg, and_len_positive v w = (Raise (TypeError msg), w).
Proof.
  unfold and_len_positive, py_len. run_monad.
  destruct v as [|b|n|m e|s|l|kvs]; simpl; try (by left).
  - destruct b; [right; by eexists | by left].
  - destruct (Z.eqb n 0); [by left | right; by eexists].
  - destruct (Z.eqb m 0); [by left | right; by eexists].
  - destruct s; by left.
  - destruct l; by left.
  - destruct kvs; by left.
Qed.

Lemma normalised_truthy (v : value) :
  let v' := match v with VNone => VList [] | _ => v end in
  truthy v' = truthy v ∧ (truthy v = true → v' = v).
Proof. by destruct v. Qed.

(** The payload a session thread posts, if it posts. *)
Lemma session_thread_payload `{PyLib} (sid : string) (pr l cs v : value)
    (r : post_result) (w : world) (p : list (string * value)) :
  posted (exec (start_gladia_session sid pr l cs v r) w) = posted w ++ [VDict p] →
  let language_config :=
    (if truthy l then [("languages", l)] else []) ++
    (if truthy cs then [("code_switching", VBool true)] else []) in
  p = [("encoding", VStr "wav/pcm"); ("sample_rate", VInt 16000);
       ("messages_config", VDict [("receive_partial_transcripts", pr);
                                  ("receive_final_transcripts", VBool true)])]
      ++ (match language_config with
          | [] => []
          | _ => [("language_config", VDict language_config)]
          end)
      ++ (if truthy v
          then [("realtime_processing",
                 VDict [("custom_vocabulary", VBool true);
                        ("custom_vocabulary_config", VDict [("vocabulary", v)])])]
          else []).
Proof.
  unfold exec.
  remember (start_gladia_session sid pr l cs v r w) as res eqn:Hres.
  unfold start_gladia_session in Hres.
  destruct (normalised_truthy l) as [Hl Hl'], (normalised_truthy v) as [Hv Hv'].
  set (l' := match l with VNone => VList [] | _ => l end) in *. clearbody l'.
  set (v' := match v with VNone => VList [] | _ => v end) in *. clearbody v'.
  run_monad.
  destruct (and_len_positive_spec l' w) as [E1 | [m1 E1]]; rewrite E1 in Hres;
    [|subst res; simpl; intros Hp; apply (f_equal length) in Hp;
      rewrite length_app in Hp; simpl in Hp; lia].
  destruct (and_len_positive_spec v' w) as [E2 | [m2 E2]]; rewrite E2 in Hres;
    [|subst res; simpl; intros Hp; apply (f_equal length) in Hp;
      rewrite length_app in Hp; simpl in Hp; lia].
  match type of Hres with
  | context [requests_post (VDict ?q)] => set (payload := q) in Hres
  end.
  assert (Hpost : posted res.2 = posted w ++ [VDict payload]).
  { clearbody payload. subst res.
    unfold connect_to_gladia_websocket, requests_post, raise_for_status. run_prims.
    repeat (simpl; first [ done | branch ]). }
  intros Hp. rewrite Hpost in Hp. apply app_inv_head in Hp. injection Hp as <-.
  subst payload. rewrite Hl, Hv.
  destruct (truthy l) eqn:Tl, (truthy cs) eqn:Tc, (truthy v) eqn:Tv;
    rewrite ?Hl', ?Hv' by done; reflexivity.
Qed.

(** X7: every handshake request of the bridge asks for the same audio
    format, 16 kHz wav/pcm, asks for final transcripts, and passes the
    client's choice for partial ones. *)
Theorem session_payload_format `{PyLib} (sid : string) (pr l cs v : value)
    (r : post_result) (w : world) (p : list (string * value)) :
  posted (exec (start_gladia_session sid pr l cs v r) w) = posted w ++ [VDict p] →
  dict_lookup "encoding" p = Some (VStr "wav/pcm") ∧
  dict_lookup "sample_rate" p = Some (VInt 16000) ∧
  dict_lookup "messages_config" p =
    Some (VDict [("receive_partial_transcripts", pr);
                 ("receive_final_transcripts", VBool true)]).
Proof.
  intros Hp. rewrite (session_thread_payload sid pr l cs v r w p Hp). by repeat split.
Qed.

Lemma session_payload_format_witness :
  dict_lookup "sample_rate"
    [("encoding", VStr "wav/pcm"); ("sample_rate", VInt 16000);
     ("messages_config", VDict [("receive_partial_transcripts", VBool true);
                                ("receive_final_transcripts", VBool true)])] =
  Some (VInt 16000).
Proof.
  refine (proj1 (proj2 (session_payload_format "c" (VBool true) (VList []) (VBool false)
                          (VList []) session_created initial _ _))).
  vm_compute. reflexivity.
Defined.

(** X8: the request carries a language section exactly when languages were
    given or code switching was asked for, holding just what was given; it
    carries a vocabulary section exactly when a vocabulary was given. *)
Theorem session_payload_options `{PyLib} (sid : string) (pr l cs v : value)
    (r : post_result) (w : world) (p : list (string * value)) :
  posted (exec (start_gladia_session sid pr l cs v r) w) = posted w ++ [VDict p] →
  dict_lookup "language_config" p =
    (if truthy l || truthy cs
     then Some (VDict ((if truthy l then [("languages", l)] else []) ++
                       (if truthy cs then [("code_switching", VBool true)] else [])))
     else None) ∧
  dict_lookup "realtime_processing" p =
    (if truthy v
     then Some (VDict [("custom_vocabulary", VBool true);
                       ("custom_vocabulary_config", VDict [("vocabulary", v)])])
     else None).
Proof.
  intros Hp. rewrite (session_thread_payload sid pr l cs v r w p Hp).
  by destruct (truthy l), (truthy cs), (truthy v).
Qed.

Lemma session_payload_options_witness :
  let p := [("encoding", VStr "wav/pcm"); ("sample_rate", VInt 16000);
            ("messages_config", VDict [("receive_partial_transcripts", VBool false);
                                       ("receive_final_transcripts", VBool true)]);
            ("language_config", VDict [("code_switching", VBool true)])] in
  dict_lookup "language_config" p = Some (VDict [("code_switching", VBool true)]) ∧
  dict_lookup "realtime_processing" p = None.
Proof.
  refine (session_payload_options "c" (VBool false) VNone (VBool true) (VList [])
            (Failed "no route to host") initial _ _).
  vm_compute. reflexivity.
Defined.

(** The steps every proof about a session thread starts with: the two
    length tests leave the world alone, and a thread that dies in them has
    posted nothing. *)
Ltac thread_prelude :=
  cbv zeta; unfold exec, outcome;
  match goal with
  | |- context [start_gladia_session ?sid ?pr ?l ?cs ?v ?r ?w] =>
      let res := fresh "res" in
      let Hres := fresh "Hres" in
      let l' := fresh "l'" in
      let v' := fresh "v'" in
      let E := fresh "E" in
      remember (start_gladia_session sid pr l cs v r w) as res eqn:Hres;
      unfold start_gladia_session in Hres;
      set (l' := match l with VNone => VList [] | _ => l end) in Hres; clearbody l';
      set (v' := match v with VNone => VList [] | _ => v end) in Hres; clearbody v';
      run_monad;
      destruct (and_len_positive_pure l' w) as [[? | ?] E]; rewrite E in Hres; clear E;
        [|subst res; simpl; intros; congruence];
      destruct (and_len_positive_pure v' w) as [[? | ?] E]; rewrite E in Hres; clear E;
        [|subst res; simpl; intros; congruence];
      match type of Hres with
      | context [requests_post (VDict ?q)] =>
          let payload := fresh "payload" in
          set (payload := q) in Hres; clearbody payload
      end;
      subst res;
      unfold requests_post, raise_for_status;
      run_prims; simpl
  end.

(** X9: when the POST itself fails (no connection, timeout), the client
    gets exactly one [error] event with the failure's text; no socket is
    created and the registry is left as it was. *)
Theorem transport_failure_reported `{PyLib} (sid : string) (pr l cs v : value)
    (msg : string) (w : world) :
  let w' := exec (start_gladia_session sid pr l cs v (Failed msg)) w in
  posted w' ≠ posted w →
  sockets w' = sockets w ∧ active_sessions w' = active_sessions w ∧
  emitted w' =
    emitted w ++
    [{| ev_name := "error";
        ev_data := VDict [("message", VStr ("Failed to create session: " +:+ msg))];
        ev_room := sid |}].
Proof. thread_prelude. done. Qed.

Lemma transport_failure_reported_witness :
  emitted (step (PostAnswered 0 (Failed "no route to host"))
             (step (StartStream "c" VNone) initial)) =
    emitted (step (StartStream "c" VNone) initial) ++
    [{| ev_name := "error";
        ev_data := VDict [("message",
                           VStr "Failed to create session: no route to host")];
        ev_room := "c" |}].
Proof.
  refine (proj2 (proj2 (transport_failure_reported "c" (VBool true) (VList [])
                          (VBool false) (VList []) "no route to host"
                          (set_threads (delete 0%nat)
                             (step (StartStream "c" VNone) initial)) _))).
  vm_compute. discriminate.
Defined.

(** X10: an answer outside 400-599 whose body is not JSON, or is JSON but
    not an object, is reported like any other failure: one [error] event
    with the exception's text, no socket, registry unchanged. *)
Theorem unusable_answer_reported `{PyLib} (sid : string) (pr l cs v : value)
    (status_code : Z) (text : string) (e : exn) (w : world) :
  let w' := exec (start_gladia_session sid pr l cs v (Response status_code text)) w in
  ¬ (400 ≤ status_code < 600) →
  (∃ m, loads text = inl e ∧ e = JSONDecodeError m) ∨
  (∃ body, loads text = inr body ∧ (∀ kvs, body ≠ VDict kvs) ∧
           e = AttributeError (type_name body) "get") →
  posted w' ≠ posted w →
  sockets w' = sockets w ∧ active_sessions w' = active_sessions w ∧
  emitted w' =
    emitted w ++
    [{| ev_name := "error";
        ev_data := VDict [("message",
                           VStr ("Failed to create session: " +:+ str_exn e))];
        ev_room := sid |}].
Proof.
  intros w' Hstatus Hbody. subst w'. revert Hbody. thread_prelude.
  rewrite (bool_decide_false _ Hstatus).
  intros [(m & -> & ->) | (body & -> & Hnd & ->)] _; simpl; [done|].
  destruct body; simpl; try done. by destruct (Hnd kvs).
Qed.

Lemma unusable_answer_reported_witness :
  emitted (exec (start_gladia_session "c" (VBool true) (VList []) (VBool false)
                   (VList []) (Response 200 "[1, 2]")) initial) =
    [{| ev_name := "error";
        ev_data := VDict [("message",
                           VStr "Failed to create session: 'list' object has no attribute 'get'")];
        ev_room := "c" |}].
Proof.
  refine (proj2 (proj2 (unusable_answer_reported "c" (VBool true) (VList [])
                          (VBool false) (VList []) 200 "[1, 2]"
                          (AttributeError "list" "get") initial _ _ _))).
  - lia.
  - right. exists (VList [VInt 1; VInt 2]).
    split; [vm_compute; reflexivity | split; [discriminate | reflexivity]].
  - vm_compute. discriminate.
Defined.

(** X11: an answer outside 400-599 whose body is a JSON object creates one
    new socket on the body's [url] (None when the body has none), for this
    client, and puts it in the client's registry entry in place of whatever
    handle was there, keeping the entry's config; the entry is created
    bare if the client has none.  The client is sent nothing when
    [run_forever] takes the URL.  When [run_forever] raises for it, the
    socket and the entry have been written all the same, and the client is
    sent one [error] event with the text of the exception. *)
Theorem handshake_accepted `{PyLib} (sid : string) (pr l cs v : value)
    (status_code : Z) (text : string) (body : list (string * value)) (w : world) :
  let w' := exec (start_gladia_session sid pr l cs v (Response status_code text)) w in
  ¬ (400 ≤ status_code < 600) →
  loads text = inr (VDict body) →
  posted w' ≠ posted w →
  sockets w' =
    sockets w ++ [{| ws_url := default VNone (dict_lookup "url" body); ws_client := sid;
                     sock := Connecting; running := true; sent := [] |}] ∧
  active_sessions w' =
    <[sid := Build_session (active_sessions w !! sid ≫= config)
                           (Some (length (sockets w)))]> (active_sessions w) ∧
  emitted w' =
    emitted w ++
    match refuses (default VNone (dict_lookup "url" body)) with
    | Some msg =>
        [{| ev_name := "error";
            ev_data := VDict [("message", VStr ("Failed to create session: " +:+ msg))];
            ev_room := sid |}]
    | None => []
    end.
Proof.
  intros w' Hstatus Hbody. subst w'. revert Hbody. thread_prelude.
  rewrite (bool_decide_false _ Hstatus). intros -> _. simpl.
  rewrite connect_effect. destruct (refuses _); simpl; by rewrite ?app_nil_r.
Qed.

Lemma handshake_accepted_witness :
  let w := step (StartStream "c" (VDict [("speaker_name", VStr "Ada")])) initial in
  let w' := step (PostAnswered 0 session_created) w in
  sockets w' = [{| ws_url := VStr "wss://x"; ws_client := "c"; sock := Connecting;
                   running := true; sent := [] |}] ∧
  (ws <$> active_sessions w' !! "c") = Some (Some 0%nat) ∧
  emitted w' = emitted w.
Proof.
  intros w w'.
  destruct (handshake_accepted "c" (VBool true) (VList []) (VBool false) (VList [])
              201 (Reference.quoted "{'id':'s1','url':'wss://x'}")
              [("id", VStr "s1"); ("url", VStr "wss://x")]
              (set_threads (delete 0%nat) w)) as (Hk & Hs & He).
  - lia.
  - vm_compute. reflexivity.
  - vm_compute. discriminate.
  - split; [exact Hk|]. split; [|exact (eq_trans He (app_nil_r _))].
    change (active_sessions w') with
      (active_sessions (exec (start_gladia_session "c" (VBool true) (VList [])
         (VBool false) (VList []) session_created) (set_threads (delete 0%nat) w))).
    unfold session_created. rewrite Hs. by rewrite lookup_insert_eq.
Defined.

(** X12: a stop that arrives before the handshake is answered cancels
    nothing: the answer still opens a socket for the client and puts the
    client back into the registry, with that handle and without config. *)
Theorem stop_does_not_cancel_handshake `{PyLib} (sid : string) (pr l cs v : value)
    (status_code : Z) (text : string) (body : list (string * value)) (w : world) :
  let w1 := exec (handle_stop_stream sid) w in
  let w2 := exec (start_gladia_session sid pr l cs v (Response status_code text)) w1 in
  ¬ (400 ≤ status_code < 600) →
  loads text = inr (VDict body) →
  posted w2 ≠ posted w1 →
  active_sessions w1 !! sid = None ∧
  active_sessions w2 !! sid =
    Some {| config := None; ws := Some (length (sockets w)) |} ∧
  (sock <$> sockets w2 !! length (sockets w)) = Some Connecting ∧
  (ws_client <$> sockets w2 !! length (sockets w)) = Some sid.
Proof.
  intros w1 w2 Hstatus Hbody Hposted.
  destruct (stop_stream_effect sid w) as (_ & Hs & Hk & _). fold w1 in Hs, Hk.
  assert (Hgone : active_sessions w1 !! sid = None)
    by (rewrite Hs; apply lookup_delete_eq).
  assert (Hlen : length (sockets w1) = length (sockets w)).
  { rewrite Hk. unfold closed_for. destruct (_ ≫= ws); [apply length_alter | done]. }
  assert (Hacc : sockets w2 =
             sockets w1 ++ [{| ws_url := default VNone (dict_lookup "url" body);
                               ws_client := sid; sock := Connecting; running := true;
                               sent := [] |}] ∧
           active_sessions w2 =
             <[sid := Build_session (active_sessions w1 !! sid ≫= config)
                                    (Some (length (sockets w1)))]> (active_sessions w1)).
  { subst w2. revert Hbody Hposted. generalize w1. intros w0. thread_prelude.
    rewrite (bool_decide_false _ Hstatus). intros -> _. simpl.
    rewrite connect_effect. by destruct (refuses _). }
  destruct Hacc as [Hk2 Hs2]. split; [done|].
  rewrite Hs2, Hk2, Hgone, Hlen, lookup_insert_eq. split; [done|].
  rewrite <- Hlen. by rewrite !list_lookup_middle.
Qed.

Lemma stop_does_not_cancel_handshake_witness :
  let w := run [StartStream "c" VNone; StopStream "c";
                PostAnswered 0 session_created] initial in
  active_sessions w !! "c" = Some {| config := None; ws := Some 0%nat |} ∧
  (sock <$> sockets w !! 0%nat) = Some Connecting.
Proof.
  destruct (stop_does_not_cancel_handshake "c" (VBool true) (VList []) (VBool false)
              (VList []) 201 (Reference.quoted "{'id':'s1','url':'wss://x'}")
              [("id", VStr "s1"); ("url", VStr "wss://x")]
              (set_threads (delete 0%nat) (step (StartStream "c" VNone) initial)))
    as (_ & Hs & Hc & _).
  - lia.
  - vm_compute. reflexivity.
  - vm_compute. discriminate.
  - split; [|exact Hc]. vm_compute. reflexivity.
Defined.

(** X13: a languages setting that is truthy but has no length (a number
    other than zero, or true) ends the session thread with a
    [TypeError] before the [try]: nothing is posted, nothing is printed, and
    the client, already told [stream_started], is never sent an error. *)
Theorem unsized_setting_ends_thread `{PyLib} (sid : string) (pr l cs v : value)
    (r : post_result) (w : world) :
  truthy l = true →
  type_name l = "bool" ∨ type_name l = "int" ∨ type_name l = "float" →
  exec (start_gladia_session sid pr l cs v r) w = w ∧
  outcome (start_gladia_session sid pr l cs v r) w =
    Raise (TypeError ("object of type '" +:+ type_name l +:+ "' has no len()")).
Proof.
  intros Ht Hty. unfold start_gladia_session, and_len_positive, py_len. run_monad.
  destruct l; simpl in *; try (by intuition discriminate); by rewrite Ht.
Qed.

Lemma unsized_setting_ends_thread_witness :
  let w := step (StartStream "c" (VDict [("languages", VInt 5)])) initial in
  emitted (step (PostAnswered 0 session_created) w) = emitted w ∧
  posted (step (PostAnswered 0 session_created) w) = [].
Proof.
  intros w.
  destruct (unsized_setting_ends_thread "c" (VBool true) (VInt 5) (VBool false)
              (VList []) session_created (set_threads (delete 0%nat) w))
    as [Hw _]; [reflexivity | by right; left |].
  change (step (PostAnswered 0 session_created) w) with
    (exec (start_gladia_session "c" (VBool true) (VInt 5) (VBool false) (VList [])
             session_created) (set_threads (delete 0%nat) w)).
  by rewrite Hw.
Defined.

(** ** The WebSocket callbacks *)

(** X14: when a socket's [run_forever] ends, [on_close] removes the
    registry entry of the client the socket was created for, whichever
    handle that entry holds by then: after it the client is not streaming,
    even if its entry held another, connected handle.  A second closure of
    the same socket is ignored. *)
Theorem close_unregisters_client `{PyLib} (h : nat) (a : WebSocketApp) (c m : value)
    (w : world) :
  let w' := step (WsClose h c m) w in
  sockets w !! h = Some a → running a = true →
  active_sessions w' = delete (ws_client a) (active_sessions w) ∧
  sockets w' = alter (λ a, with_running false (with_sock Closed a)) h (sockets w) ∧
  streaming_on w' (ws_client a) = None ∧
  ∀ c' m', step (WsClose h c' m') w' = w'.
Proof.
  intros w' Ha Hr. subst w'. unfold step, callback. rewrite Ha, Hr.
  match goal with
  | |- context [exec (on_close ?s ?x ?y) ?w1] =>
      destruct (on_close_effect s x y w1) as (Hs & Hk & _); simpl in Hs, Hk
  end.
  split; [exact Hs|]. split; [exact Hk|]. split.
  - unfold streaming_on. by rewrite Hs, lookup_delete_eq.
  - intros c' m'. by rewrite Hk, list_lookup_alter_eq, Ha.
Qed.

Lemma close_unregisters_client_witness :
  let restarted :=
    run [StartStream "c" VNone; PostAnswered 0 session_created; WsOpen 0;
         StartStream "c" VNone; PostAnswered 0 session_created; WsOpen 1] initial in
  streaming_on restarted "c" = Some 1%nat ∧
  streaming_on (step (WsClose 0 VNone VNone) restarted) "c" = None ∧
  (sock <$> sockets (step (WsClose 0 VNone VNone) restarted) !! 1%nat) = Some Connected.
Proof.
  intros restarted.
  destruct (close_unregisters_client 0 {| ws_url := VStr "wss://x"; ws_client := "c";
                                           sock := Connected; running := true;
                                           sent := [] |} VNone VNone restarted)
    as (_ & _ & Hoff & _); [vm_compute; reflexivity | reflexivity |].
  split; [vm_compute; reflexivity|]. split; [exact Hoff|]. vm_compute. reflexivity.
Defined.

(** X15: a frame that is JSON but not an object (a list, a number, a
    string, null) is absorbed like an undecodable one: [on_message] prints
    one line and does nothing else. *)
Theorem non_object_frame_absorbed `{PyLib} (client_sid message : string) (data : value)
    (w : world) :
  loads message = inr data → (∀ kvs, data ≠ VDict kvs) →
  outcome (on_message client_sid message) w = Return tt ∧
  exec (on_message client_sid message) w =
    set_stdout (λ out, out ++ [[Lit "Error in on_message: ";
                                Err (AttributeError (type_name data) "get")]]) w.
Proof.
  intros Hl Hnd. unfold on_message. run_prims. rewrite Hl.
  destruct data; simpl; try done. by destruct (Hnd kvs).
Qed.

Lemma non_object_frame_absorbed_witness :
  emitted (exec (on_message "c" "[1, 2]") ada_streaming) = emitted ada_streaming.
Proof.
  destruct (non_object_frame_absorbed "c" "[1, 2]" (VList [VInt 1; VInt 2]) ada_streaming)
    as [_ ->]; [vm_compute; reflexivity | discriminate | reflexivity].
Defined.

(** X16: a transcript frame whose [data] or [utterance] is present but is
    not an object (for instance null) is absorbed in the same way: one line
    printed, no event. *)
Theorem malformed_transcript_absorbed `{PyLib} (client_sid message : string)
    (top : list (string * value)) (bad : value) (w : world) :
  loads message = inr (VDict top) →
  dict_lookup "type" top = Some (VStr "transcript") →
  (∀ kvs, bad ≠ VDict kvs) →
  dict_lookup "data" top = Some bad ∨
  (∃ d, dict_lookup "data" top = Some (VDict d) ∧ dict_lookup "utterance" d = Some bad) →
  exec (on_message client_sid message) w =
    set_stdout (λ out, out ++ [[Lit "Error in on_message: ";
                                Err (AttributeError (type_name bad) "get")]]) w.
Proof.
  intros Hl Hty Hnd Hbad. unfold on_message. run_prims. rewrite Hl. simpl.
  rewrite Hty. simpl.
  destruct Hbad as [-> | (d & -> & Hu)]; simpl.
  - destruct bad; simpl; try done. by destruct (Hnd kvs).
  - rewrite Hu. simpl. destruct bad; simpl; try done. by destruct (Hnd kvs).
Qed.

Lemma malformed_transcript_absorbed_witness :
  emitted (exec (on_message "c" (Reference.quoted "{'type':'transcript','data':null}"))
             ada_streaming) = emitted ada_streaming.
Proof.
  rewrite (malformed_transcript_absorbed "c"
             (Reference.quoted "{'type':'transcript','data':null}")
             [("type", VStr "transcript"); ("data", VNone)] VNone ada_streaming);
    [reflexivity | vm_compute; reflexivity | reflexivity | discriminate | by left].
Defined.

(** ** The Socket.IO handlers *)

(** X17: a start command whose config is neither absent nor a dict (a
    string, a list, a number) fails on its first [config.get] with an
    [AttributeError]: no entry is written, no thread is started, and
    [stream_started] is not sent. *)
Theorem start_stream_rejects_config (client_sid : string) (config : value) (w : world) :
  let w' := exec (handle_start_stream client_sid config) w in
  config ≠ VNone → (∀ kvs, config ≠ VDict kvs) →
  outcome (handle_start_stream client_sid config) w =
    Raise (AttributeError (type_name config) "get") ∧
  active_sessions w' = active_sessions w ∧ threads w' = threads w ∧
  emitted w' = emitted w ∧ sockets w' = sockets w.
Proof.
  intros w' Hn Hd. subst w'. unfold handle_start_stream. run_prims.
  destruct config; simpl; try done. by destruct (Hd kvs).
Qed.

Lemma start_stream_rejects_config_witness :
  step (StartStream "c" (VStr "fast")) initial =
  set_stdout (λ _, [banner; [Lit "START STREAM CALLED FOR: "; Lit "c"]; banner]) initial.
Proof.
  destruct (start_stream_rejects_config "c" (VStr "fast") initial)
    as (_ & Hs & Ht & He & Hk); [discriminate | discriminate |].
  reflexivity.
Defined.

(** X18: a stop closes the handle the client's entry holds: a client that
    was streaming is not streaming afterwards, its socket is closed, and a
    chunk of audio that still arrives reaches no socket. *)
Theorem stop_ends_streaming `{PyLib} (client_sid : string) (h : nat) (data : value)
    (fault : option exn) (w : world) :
  let w1 := exec (handle_stop_stream client_sid) w in
  let w2 := exec (handle_audio_data client_sid data fault) w1 in
  streaming_on w client_sid = Some h →
  (sock <$> sockets w1 !! h) = Some Closed ∧
  streaming_on w1 client_sid = None ∧
  sockets w2 = sockets w1 ∧ emitted w2 = emitted w1 ∧
  stdout w2 = stdout w1 ++ [[Lit "No active session for "; Lit client_sid]].
Proof.
  intros w1 w2 Hon.
  destruct (stop_stream_effect client_sid w) as (_ & Hs & Hk & _). fold w1 in Hs, Hk.
  assert (Hgone : active_sessions w1 !! client_sid = None)
    by (rewrite Hs; apply lookup_delete_eq).
  split; [|split].
  - rewrite Hk. unfold closed_for, streaming_on in *.
    destruct (active_sessions w !! client_sid) as [e|]; simpl in *; [|done].
    destruct (ws e) as [h'|]; simpl in *; [|done].
    destruct (sockets w !! h') as [a|] eqn:Ha; simpl in *; [|done].
    destruct (is_connected (sock a)); [|done]. injection Hon as <-.
    by rewrite list_lookup_alter_eq, Ha.
  - unfold streaming_on. by rewrite Hgone.
  - subst w2. unfold handle_audio_data. run_prims. simpl. by rewrite Hgone.
Qed.

Lemma stop_ends_streaming_witness :
  let w1 := step (StopStream "c") ada_streaming in
  (sock <$> sockets w1 !! 0%nat) = Some Closed ∧
  sockets (step (AudioData "c" (VDict [("audio", VStr "aGVsbG8=")]) None) w1) = sockets w1.
Proof.
  intros w1.
  destruct (stop_ends_streaming "c" 0 (VDict [("audio", VStr "aGVsbG8=")]) None
              ada_streaming) as (Hc & _ & Hk & _); [vm_compute; reflexivity |].
  split; [exact Hc | exact Hk].
Defined.

(** X19: between the handshake and [on_open] the client is not yet
    streaming, so audio sent in that window is dropped; from [on_open] on it
    streams on the new handle. *)
Theorem streaming_starts_at_open `{PyLib} (client_sid : string) (ws_url : value)
    (w : world) :
  let h := length (sockets w) in
  let w1 := exec (connect_to_gladia_websocket client_sid ws_url) w in
  streaming_on w1 client_sid = None ∧
  streaming_on (step (WsOpen h) w1) client_sid = Some h.
Proof.
  intros h w1. subst h.
  destruct (connect_adds_socket client_sid ws_url w) as [Hk Hs]. fold w1 in Hk, Hs.
  destruct (active_sessions w1 !! client_sid) as [e|] eqn:He; [|done].
  simpl in Hs. injection Hs as Hws.
  split.
  - unfold streaming_on. rewrite He. simpl. rewrite Hws. simpl.
    rewrite Hk. by rewrite list_lookup_middle.
  - unfold step, callback. rewrite Hk, list_lookup_middle by done. simpl.
    unfold streaming_on. simpl. rewrite He. simpl. rewrite Hws. simpl.
    rewrite Hk, alter_last. by rewrite list_lookup_middle.
Qed.

(** X20: from a streaming client, a chunk without the ['audio'] key, or
    whose ['audio'] does not decode, sends nothing upstream and brings the
    client one [error] event naming the exception. *)
Theorem bad_audio_reported `{PyLib} (client_sid : string) (h : nat)
    (kvs : list (string * value)) (e : exn) (fault : option exn) (w : world) :
  let w' := exec (handle_audio_data client_sid (VDict kvs) fault) w in
  streaming_on w client_sid = Some h →
  (dict_lookup "audio" kvs = None ∧ e = KeyError "audio") ∨
  (∃ audio, dict_lookup "audio" kvs = Some (VStr audio) ∧ b64decode audio = inl e) →
  sockets w' = sockets w ∧ emitted w' = emitted w ++ [audio_error client_sid e].
Proof.
  intros w' Hon Hbad. subst w'. unfold streaming_on in Hon.
  unfold handle_audio_data, py_b64decode. run_prims. simpl.
  destruct (active_sessions w !! client_sid) as [[c [h'|]]|]; simpl in *; [|done..].
  destruct (sockets w !! h') as [a|]; simpl in *; [|done].
  destruct (sock a); simpl in *; try done.
  destruct Hbad as [[-> ->] | (audio & -> & Hd)]; simpl; [done|]. by rewrite Hd.
Qed.

Lemma bad_audio_reported_witness :
  emitted (step (AudioData "c" (VDict [("chunk", VStr "aGVsbG8=")]) None) ada_streaming) =
    emitted ada_streaming ++ [audio_error "c" (KeyError "audio")].
Proof.
  refine (proj2 (bad_audio_reported "c" 0 [("chunk", VStr "aGVsbG8=")]
                   (KeyError "audio") None ada_streaming _ _)).
  - vm_compute. reflexivity.
  - left. split; reflexivity.
Defined.

(** * The HTTP routes *)

Lemma dict_lookup_set_eq (k : string) (v : value) (kvs : list (string * value)) :
  dict_lookup k (dict_set k v kvs) = Some v.
Proof.
  induction kvs as [|[k' v'] kvs IH]; simpl.
  - by rewrite String.eqb_refl.
  - destruct (String.eqb k k') eqn:E; simpl; rewrite ?E; [by rewrite String.eqb_refl | done].
Qed.

(** X21: [verify_access] answers 200 only when an access key is configured,
    is not empty, and the request's [key] is that very string; any other
    request with an object body is answered 401 and leaves the session
    untouched. *)
Theorem access_granted_only_with_key (ACCESS_KEY : option string) (data : value)
    (session session' : Routes.flask_session) (response : Routes.response) :
  Routes.verify_access ACCESS_KEY data session = inr (response, session') →
  (∃ k kvs, ACCESS_KEY = Some k ∧ k ≠ "" ∧ data = VDict kvs ∧
            dict_lookup "key" kvs = Some (VStr k) ∧
            response = Routes.jsonify (VDict [("success", VBool true)]) 200) ∨
  (response = Routes.jsonify (VDict [("success", VBool false);
                                     ("error", VStr "Invalid access key")]) 401 ∧
   session' = session).
Proof.
  unfold Routes.verify_access. destruct data as [| | | | | |kvs]; try done.
  assert (Hdeny :
    inr (Routes.jsonify (VDict [("success", VBool false);
                                ("error", VStr "Invalid access key")]) 401, session)
      = (inr (response, session') : exn + Routes.response * Routes.flask_session) →
    response = Routes.jsonify (VDict [("success", VBool false);
                                      ("error", VStr "Invalid access key")]) 401 ∧
    session' = session).
  { intros Heq. by inversion Heq. }
  destruct ACCESS_KEY as [k|]; simpl; [|intros Heq; right; exact (Hdeny Heq)].
  destruct (String.eqb_spec k ""); simpl; [intros Heq; right; exact (Hdeny Heq)|].
  destruct (dict_lookup "key" kvs) as [provided|] eqn:Hk; simpl.
  - destruct provided; simpl; try (intros Heq; right; exact (Hdeny Heq)).
    destruct (String.eqb_spec s k) as [->|]; [|intros Heq; right; exact (Hdeny Heq)].
    intros Heq. inversion Heq. left. by exists k, kvs.
  - destruct k; [done|]. intros Heq; right; exact (Hdeny Heq).
Qed.

(** A wrong guess. *)
Lemma access_granted_only_with_key_witness :
  (∃ k kvs, Some "s3cret" = Some k ∧ k ≠ "" ∧
            VDict [("key", VStr "guess")] = VDict kvs ∧
            dict_lookup "key" kvs = Some (VStr k) ∧
            Routes.jsonify (VDict [("success", VBool false);
                                   ("error", VStr "Invalid access key")]) 401 =
            Routes.jsonify (VDict [("success", VBool true)]) 200) ∨
  (Routes.jsonify (VDict [("success", VBool false);
                          ("error", VStr "Invalid access key")]) 401 =
   Routes.jsonify (VDict [("success", VBool false);
                          ("error", VStr "Invalid access key")]) 401 ∧
   {| Routes.permanent := false; Routes.items := [] |} =
   {| Routes.permanent := false; Routes.items := [] |}).
Proof.
  exact (access_granted_only_with_key (Some "s3cret") (VDict [("key", VStr "guess")])
           {| Routes.permanent := false; Routes.items := [] |}
           {| Routes.permanent := false; Routes.items := [] |}
           (Routes.jsonify (VDict [("success", VBool false);
                                   ("error", VStr "Invalid access key")]) 401)
           eq_refl).
Defined.

(** X22: the login round trip: a session that [verify_access] has just
    granted is permanent, and [index] serves it the application page. *)
Theorem granted_session_sees_application (ACCESS_KEY : option string) (data body : value)
    (session session' : Routes.flask_session) :
  Routes.verify_access ACCESS_KEY data session = inr (Routes.jsonify body 200, session') →
  Routes.permanent session' = true ∧
  Routes.index ACCESS_KEY session' = Routes.send_from_directory "static" "index.html".
Proof.
  unfold Routes.verify_access, Routes.index. destruct data as [| | | | | |kvs]; try done.
  destruct (Routes.is_set ACCESS_KEY && _) eqn:Hg; [|done].
  intros Heq. inversion Heq. simpl. split; [done|].
  rewrite dict_lookup_set_eq. simpl. by destruct (negb _).
Qed.

Lemma granted_session_sees_application_witness :
  Routes.index (Some "s3cret")
    {| Routes.permanent := true; Routes.items := [("authenticated", VBool true)] |} =
  Routes.send_from_directory "static" "index.html".
Proof.
  exact (proj2 (granted_session_sees_application (Some "s3cret")
                  (VDict [("key", VStr "s3cret")]) (VDict [("success", VBool true)])
                  {| Routes.permanent := false; Routes.items := [] |}
                  {| Routes.permanent := true;
                     Routes.items := [("authenticated", VBool true)] |} eq_refl)).
Defined.

(** * The command-line client *)

(** With lists for settings the session thread always gets to its POST. *)
Lemma session_thread_posts `{PyLib} (sid : string) (pr cs : value) (ls vs : list value)
    (r : post_result) (w : world) :
  ∃ p, posted (exec (start_gladia_session sid pr (VList ls) cs (VList vs) r) w) =
       posted w ++ [VDict p].
Proof.
  destruct (session_thread_effect sid pr (VList ls) cs (VList vs) r w)
    as [(_ & _ & _ & _ & Hout) | [(p & _ & Hp & _) | (p & _ & Hp & _)]];
    [exfalso | by exists p..].
  revert Hout. unfold start_gladia_session, and_len_positive, py_len,
    connect_to_gladia_websocket, requests_post, raise_for_status. run_prims.
  assert (Hgrow : ∀ (x : list piece) (rest : list (list piece)),
            stdout w ++ x :: rest ≠ stdout w).
  { intros x rest Heq. apply (f_equal length) in Heq. rewrite length_app in Heq.
    simpl in Heq. lia. }
  destruct ls, vs; simpl;
    repeat (simpl; first [ by rewrite <- ?app_assoc; apply Hgrow | branch ]).
Qed.

(** The payload [create_session] posts, whatever comes back. *)
Lemma cli_posted `{PyLib} (c : CliSetup.constants) (r : post_result) (w : world) :
  ∃ p, posted (exec (CliSetup.create_session c r) w) = posted w ++ [VDict p] ∧
       p = [("encoding", VStr "wav/pcm"); ("sample_rate", CliSetup.SAMPLE_RATE c);
            ("messages_config",
              VDict [("receive_partial_transcripts", CliSetup.SHOW_PARTIAL_RESULTS c);
                     ("receive_final_transcripts", VBool true)])]
           ++ (if truthy (CliSetup.LANGUAGES c)
               then [("language_config",
                      VDict (("languages", CliSetup.LANGUAGES c)
                             :: if truthy (CliSetup.CODE_SWITCHING c)
                                then [("code_switching", VBool true)] else []))]
               else [])
           ++ (if truthy (CliSetup.CUSTOM_VOCABULARY c)
               then [("realtime_processing",
                      VDict [("custom_vocabulary", VBool true);
                             ("custom_vocabulary_config",
                               VDict [("vocabulary", CliSetup.CUSTOM_VOCABULARY c)])])]
               else []).
Proof.
  unfold CliSetup.create_session.
  match goal with
  | |- context [requests_post (VDict ?q) r] => set (payload := q)
  end.
  exists payload. split.
  - clearbody payload. unfold requests_post, raise_for_status. run_prims.
    repeat (simpl; first [ done | branch ]).
  - subst payload.
    by destruct (truthy (CliSetup.LANGUAGES c)), (truthy (CliSetup.CODE_SWITCHING c)),
         (truthy (CliSetup.CUSTOM_VOCABULARY c)).
Qed.

(** X23: with lists for languages and vocabulary and a sample rate of
    16000, the command-line client posts exactly the payload the bridge
    posts for the same settings, unless code switching is on without any
    language: then the bridge sends a language section holding only
    [code_switching], and the client sends none. *)
Theorem cli_payload_matches_bridge `{PyLib} (c : CliSetup.constants)
    (ls vs : list value) (sid : string) (r : post_result) (w : world) :
  CliSetup.SAMPLE_RATE c = VInt 16000 →
  CliSetup.LANGUAGES c = VList ls → CliSetup.CUSTOM_VOCABULARY c = VList vs →
  let cli := posted (exec (CliSetup.create_session c r) w) in
  let bridge :=
    posted (exec (start_gladia_session sid (CliSetup.SHOW_PARTIAL_RESULTS c) (VList ls)
                    (CliSetup.CODE_SWITCHING c) (VList vs) r) w) in
  (ls ≠ [] ∨ truthy (CliSetup.CODE_SWITCHING c) = false → cli = bridge) ∧
  (ls = [] → truthy (CliSetup.CODE_SWITCHING c) = true →
   ∃ p q, cli = posted w ++ [VDict p] ∧ bridge = posted w ++ [VDict q] ∧
          dict_lookup "language_config" p = None ∧
          dict_lookup "language_config" q = Some (VDict [("code_switching", VBool true)])).
Proof.
  intros Hrate Hl Hv cli bridge. subst cli bridge.
  destruct (cli_posted c r w) as (p & -> & Hp).
  destruct (session_thread_posts sid (CliSetup.SHOW_PARTIAL_RESULTS c)
              (CliSetup.CODE_SWITCHING c) ls vs r w) as (q & Hq).
  pose proof (session_thread_payload _ _ _ _ _ _ _ _ Hq) as Hq'. cbv zeta in Hq'.
  rewrite Hq. rewrite Hrate, Hl, Hv in Hp. split.
  - intros Hsame. f_equal. f_equal. f_equal. rewrite Hp, Hq'.
    destruct ls, vs, (truthy (CliSetup.CODE_SWITCHING c)); simpl; try done;
      by destruct Hsame.
  - intros -> Hcs. exists p, q. repeat split; try done.
    + rewrite Hp. simpl. by destruct vs.
    + rewrite Hq', Hcs. simpl. by destruct vs.
Qed.

(** The constants of the file, against the bridge given the same. *)
Lemma cli_payload_matches_bridge_witness :
  posted (exec (CliSetup.create_session CliSetup.module_constants session_created) initial) =
  posted (exec (start_gladia_session "c" (VBool true) (VList [VStr "fr"]) (VBool false)
                  (VList [VStr "Gladia"; VStr "API"; VStr "transcription";
                          VStr "diarization"]) session_created) initial).
Proof.
  refine (proj1 (cli_payload_matches_bridge CliSetup.module_constants
                   [VStr "fr"]
                   [VStr "Gladia"; VStr "API"; VStr "transcription"; VStr "diarization"]
                   "c" session_created initial eq_refl eq_refl eq_refl) _).
  left. discriminate.
Defined.

(** X24: [create_session] has no [try]: a 4xx or 5xx answer leaves it as an
    [HTTPError], a failed POST as the transport's exception, and an answer
    without [url] as a [KeyError] (where the bridge goes on with None).  In
    each case the payload has been posted and nothing comes back. *)
Theorem cli_session_failures_escape `{PyLib} (c : CliSetup.constants) (w : world) :
  (∀ status_code text, 400 ≤ status_code < 600 →
     outcome (CliSetup.create_session c (Response status_code text)) w =
       Raise (HTTPError status_code text)) ∧
  (∀ msg, outcome (CliSetup.create_session c (Failed msg)) w = Raise (Exception msg)) ∧
  (∀ status_code text body id,
     ¬ (400 ≤ status_code < 600) → loads text = inr (VDict body) →
     dict_lookup "id" body = Some id → dict_lookup "url" body = None →
     outcome (CliSetup.create_session c (Response status_code text)) w =
       Raise (KeyError "url")).
Proof.
  unfold CliSetup.create_session.
  match goal with
  | |- context [requests_post (VDict ?q)] => set (payload := q); clearbody payload
  end.
  unfold requests_post, raise_for_status. run_prims. simpl. repeat split.
  - intros status_code text Hs. by rewrite (bool_decide_true _ Hs).
  - intros status_code text body id Hs Hl Hid Hurl.
    rewrite (bool_decide_false _ Hs), Hl. simpl. rewrite Hid. simpl. by rewrite Hurl.
Qed.

Lemma cli_session_failures_escape_witness :
  outcome (CliSetup.create_session CliSetup.module_constants
             (Response 401 "Unauthorized")) initial
  = Raise (HTTPError 401 "Unauthorized").
Proof.
  apply (proj1 (cli_session_failures_escape CliSetup.module_constants initial)). lia.
Defined.

Lemma strip_empty_text (s : string) : Cli.strip s ≠ "" → s ≠ "".
Proof. intros Hs ->. by apply Hs. Qed.

Lemma format_2f_number (v : value) (w : world) :
  type_name v = "int" ∨ type_name v = "float" ∨ type_name v = "bool" →
  (∀ n, v = VInt n → Z.abs n < 2 ^ 1024 - 2 ^ 970) →
  Cli.py_format_2f v w = (Return (Fix2 v), w).
Proof.
  intros Hty Hn. destruct v; simpl; try by intuition discriminate.
  by rewrite bool_decide_true by by apply Hn.
Qed.

(** X25: for a transcript frame whose text is not blank (white space is
    what [str.isspace] says, Unicode spaces included) and whose start and end
    are absent or numbers, an int among them within the range of a float, the
    command-line client writes one line: the two times (0 when absent), the
    speaker (0 when absent), Final or Partial, and the trimmed text. *)
Theorem cli_transcript_line `{PyLib} (message : string) (top d u : list (string * value))
    (text : string) (w : world) :
  let start := default (VInt 0) (dict_lookup "start" u) in
  let end_ := default (VInt 0) (dict_lookup "end" u) in
  loads message = inr (VDict top) →
  dict_lookup "type" top = Some (VStr "transcript") →
  dict_lookup "data" top = Some (VDict d) →
  dict_lookup "utterance" d = Some (VDict u) →
  dict_lookup "text" u = Some (VStr text) →
  Cli.strip text ≠ "" →
  type_name start = "int" ∨ type_name start = "float" ∨ type_name start = "bool" →
  type_name end_ = "int" ∨ type_name end_ = "float" ∨ type_name end_ = "bool" →
  (∀ n, start = VInt n ∨ end_ = VInt n → Z.abs n < 2 ^ 1024 - 2 ^ 970) →
  exec (Cli.on_message message) w =
    set_stdout
      (λ out, out ++
         [[Lit "["; Fix2 start; Lit "s - "; Fix2 end_; Lit "s] [Speaker ";
           Val (default (VInt 0) (dict_lookup "speaker" u)); Lit "] [";
           Lit (if truthy (default (VBool false) (dict_lookup "is_final" d))
                then "Final" else "Partial");
           Lit "] - "; Lit (Cli.strip text)]]) w.
Proof.
  intros start end_ Hl Hty Hd Hu Ht Hs Hf0 Hf1 Hn. unfold Cli.on_message, Cli.py_strip.
  run_prims. rewrite Hl. simpl. rewrite Hty. simpl. rewrite Hd. simpl. rewrite Hu. simpl.
  rewrite Ht. simpl.
  destruct (String.eqb_spec (Cli.strip text) ""); [done|].
  fold start end_.
  rewrite (format_2f_number start _ Hf0), (format_2f_number end_ _ Hf1) by eauto.
  reflexivity.
Qed.

Lemma cli_transcript_line_witness :
  stdout (exec (Cli.on_message transcript_frame) initial) =
    [[Lit "["; Fix2 (VFloat 1 (-1)); Lit "s - "; Fix2 (VFloat 4 (-1));
      Lit "s] [Speaker "; Val (VInt 0); Lit "] ["; Lit "Partial"; Lit "] - "; Lit "he"]].
Proof.
  rewrite (cli_transcript_line transcript_frame
             [("type", VStr "transcript");
              ("data", VDict [("is_final", VBool false);
                              ("utterance",
                               VDict [("text", VStr "he"); ("speaker", VInt 0);
                                      ("start", VFloat 1 (-1)); ("end", VFloat 4 (-1))])])]
             [("is_final", VBool false);
              ("utterance", VDict [("text", VStr "he"); ("speaker", VInt 0);
                                   ("start", VFloat 1 (-1)); ("end", VFloat 4 (-1))])]
             [("text", VStr "he"); ("speaker", VInt 0);
              ("start", VFloat 1 (-1)); ("end", VFloat 4 (-1))]
             "he" initial);
    [reflexivity | reflexivity | reflexivity | reflexivity | reflexivity | reflexivity
    | vm_compute; discriminate | by right; left | by right; left
    | intros n [?|?]; discriminate].
Defined.

(** X26: a transcript frame whose [start] is present but null, with a text
    that is not blank: the bridge forwards it with a None timestamp; the
    command-line client raises a [TypeError] while formatting it and writes
    nothing. *)
Theorem null_start_splits_the_handlers `{PyLib} (client_sid message : string)
    (top d u : list (string * value)) (text : string) (w : world) :
  loads message = inr (VDict top) →
  dict_lookup "type" top = Some (VStr "transcript") →
  dict_lookup "data" top = Some (VDict d) →
  dict_lookup "utterance" d = Some (VDict u) →
  dict_lookup "text" u = Some (VStr text) →
  Cli.strip text ≠ "" →
  dict_lookup "start" u = Some VNone →
  (∃ ev, emitted (exec (on_message client_sid message) w) = emitted w ++ [ev] ∧
         field "timestamp" ev = Some VNone ∧ field "text" ev = Some (VStr text)) ∧
  outcome (Cli.on_message message) w =
    Raise (TypeError "unsupported format string passed to NoneType.__format__") ∧
  exec (Cli.on_message message) w = w.
Proof.
  intros Hl Hty Hd Hu Ht Hs H0.
  pose proof (strip_empty_text text Hs) as Hne. split.
  - unfold on_message. run_prims. rewrite Hl. simpl. rewrite Hty. simpl.
    rewrite Hd. simpl. rewrite Hu. simpl. rewrite Ht, H0. simpl.
    destruct (String.eqb_spec text ""); [done|]. simpl.
    eexists. split; [reflexivity|]. by split.
  - unfold Cli.on_message, Cli.py_strip. run_prims. rewrite Hl. simpl. rewrite Hty.
    simpl. rewrite Hd. simpl. rewrite Hu. simpl. rewrite Ht. simpl.
    destruct (String.eqb_spec (Cli.strip text) ""); [done|].
    rewrite H0. by simpl.
Qed.

Lemma null_start_splits_the_handlers_witness :
  outcome (Cli.on_message
             (Reference.quoted
                "{'type':'transcript','data':{'utterance':{'text':'he','start':null}}}"))
          initial =
  Raise (TypeError "unsupported format string passed to NoneType.__format__").
Proof.
  refine (proj1 (proj2 (null_start_splits_the_handlers "c"
            (Reference.quoted
               "{'type':'transcript','data':{'utterance':{'text':'he','start':null}}}")
            [("type", VStr "transcript");
             ("data", VDict [("utterance", VDict [("text", VStr "he"); ("start", VNone)])])]
            [("utterance", VDict [("text", VStr "he"); ("start", VNone)])]
            [("text", VStr "he"); ("start", VNone)] "he" initial
            eq_refl eq_refl eq_refl eq_refl eq_refl _ eq_refl))).
  vm_compute. discriminate.
Defined.

(** ** Voice activity detection *)

Lemma pair_induction {A} (P : list A → Prop) :
  P [] → (∀ x, P [x]) → (∀ x y l, P l → P (x :: y :: l)) → ∀ l, P l.
Proof.
  intros H0 H1 H2 l. cut (P l ∧ ∀ x, P (x :: l)); [by intros []|].
  induction l as [|y l [IH IH']]; split; auto.
Qed.

Lemma unpack_h_length (data : bytes) :
  match CliVad.unpack_h data with
  | Some samples => length data = (2 * length samples)%nat
  | None => Nat.odd (length data) = true
  end.
Proof.
  induction data as [|x|x y l IH] using pair_induction; simpl; [done..|].
  destruct (CliVad.unpack_h l); simpl; [lia|].
  by rewrite <- IH.
Qed.

(** X27: with detection on, [should_send_audio] fails on an empty chunk
    (division by zero) and on a chunk with an odd number of bytes
    ([struct.error]); with detection off it accepts every chunk, these
    included. *)
Theorem vad_rejects_malformed_chunks (VAD_THRESHOLD : Z) (audio_data : bytes) :
  CliVad.should_send_audio false VAD_THRESHOLD audio_data = inr true ∧
  CliVad.should_send_audio true VAD_THRESHOLD [] = inl (Exception "division by zero") ∧
  (Nat.odd (length audio_data) = true →
   CliVad.should_send_audio true VAD_THRESHOLD audio_data =
     inl (Exception ("unpack requires a buffer of "
                     +:+ pretty (2 * (length audio_data / 2))%nat +:+ " bytes"))).
Proof.
  repeat split. intros Hodd. unfold CliVad.should_send_audio. simpl.
  pose proof (unpack_h_length audio_data) as Hlen.
  destruct (CliVad.unpack_h audio_data) as [samples|]; [|done].
  rewrite Hlen in Hodd. rewrite Nat.odd_mul in Hodd. done.
Qed.

Lemma vad_rejects_malformed_chunks_witness :
  CliVad.should_send_audio true 100 ["a"; "b"; "c"]%byte =
    inl (Exception "unpack requires a buffer of 2 bytes").
Proof.
  exact (proj2 (proj2 (vad_rejects_malformed_chunks 100 ["a"; "b"; "c"]%byte)) eq_refl).
Defined.

Lemma sum_abs_bounds (T : Z) (samples : list Z) :
  (Forall (λ s, T + 1 ≤ Z.abs s) samples →
   (T + 1) * Z.of_nat (length samples) ≤ CliVad.sum_abs samples) ∧
  (Forall (λ s, Z.abs s ≤ T) samples →
   CliVad.sum_abs samples ≤ T * Z.of_nat (length samples)).
Proof.
  induction samples as [|s samples [IHlo IHhi]]; simpl; [split; intros; lia|].
  split; intros Hall; inversion Hall; subst.
  - specialize (IHlo ltac:(done)). lia.
  - specialize (IHhi ltac:(done)). lia.
Qed.

(** X28: with detection on, a chunk of whole samples, not empty, is sent
    when every sample is louder than the threshold, and withheld when no
    sample is; silence in particular is withheld for any threshold that is
    not negative. *)
Theorem vad_follows_loudness (VAD_THRESHOLD : Z) (audio_data : bytes) (samples : list Z) :
  CliVad.unpack_h audio_data = Some samples → samples ≠ [] →
  (Forall (λ s, VAD_THRESHOLD < Z.abs s) samples →
   CliVad.should_send_audio true VAD_THRESHOLD audio_data = inr true) ∧
  (Forall (λ s, Z.abs s ≤ VAD_THRESHOLD) samples →
   CliVad.should_send_audio true VAD_THRESHOLD audio_data = inr false).
Proof.
  intros Hu Hne. unfold CliVad.should_send_audio. simpl. rewrite Hu.
  destruct samples as [|s0 rest]; [done|].
  rewrite bool_decide_false by done.
  destruct (sum_abs_bounds VAD_THRESHOLD (s0 :: rest)) as [Hlo Hhi].
  split; intros Hall; f_equal.
  - apply Z.ltb_lt.
    assert (Hall' : Forall (λ s, VAD_THRESHOLD + 1 ≤ Z.abs s) (s0 :: rest))
      by (eapply Forall_impl; [exact Hall | simpl; intros; lia]).
    specialize (Hlo Hall'). simpl length in *. lia.
  - apply Z.ltb_ge. by apply Hhi.
Qed.

Lemma vad_follows_loudness_witness :
  CliVad.should_send_audio true 100 ["000"; "000"; "000"; "000"]%byte = inr false ∧
  CliVad.should_send_audio true 100 ["000"; "128"; "255"; "127"]%byte = inr true.
Proof.
  split.
  - refine (proj2 (vad_follows_loudness 100 ["000"; "000"; "000"; "000"]%byte [0; 0]
                     eq_refl _) _); [discriminate|].
    repeat constructor; simpl; lia.
  - refine (proj1 (vad_follows_loudness 100 ["000"; "128"; "255"; "127"]%byte
                     [-32768; 32767] eq_refl _) _); [discriminate|].
    repeat constructor; simpl; lia.
Defined.

(** X29: one turn of the sending loop.  While the socket is not connected
    the chunk is dropped and the detector is not even consulted, so nothing
    can fail; on a connected socket, with detection off, the chunk goes
    upstream as it is, as one frame. *)
Theorem cli_loop_turn (ENABLE_VAD : bool) (VAD_THRESHOLD : Z) (ws : nat) (data : bytes)
    (fault : option exn) (a : WebSocketApp) (w : world) :
  sockets w !! ws = Some a →
  (sock a ≠ Connected →
   exec (CliVad.run_iteration ENABLE_VAD VAD_THRESHOLD ws data fault) w = w ∧
   outcome (CliVad.run_iteration ENABLE_VAD VAD_THRESHOLD ws data fault) w = Return tt) ∧
  (sock a = Connected →
   sockets (exec (CliVad.run_iteration false VAD_THRESHOLD ws data None) w) =
     <[ws := with_sent (sent a ++ [data]) a]> (sockets w)).
Proof.
  intros Ha. unfold CliVad.run_iteration. run_prims. simpl. rewrite Ha. split.
  - intros Hn. by destruct (sock a).
  - intros Hc. simpl. rewrite Hc, Ha. simpl. rewrite Hc. simpl.
    apply list_eq. intros i. destruct (decide (i = ws)) as [->|Hne].
    + rewrite list_lookup_alter_eq, Ha. simpl.
      by rewrite list_lookup_insert_eq by (by eapply lookup_lt_Some).
    + by rewrite list_lookup_alter_ne, list_lookup_insert_ne.
Qed.

Lemma cli_loop_turn_witness :
  sockets (exec (CliVad.run_iteration false 100 0 ["h"; "i"]%byte None) ada_streaming) =
    [{| ws_url := VStr "wss://x"; ws_client := "c"; sock := Connected; running := true;
        sent := [["h"; "i"]%byte] |}].
Proof.
  refine (proj2 (cli_loop_turn false 100 0 ["h"; "i"]%byte None
                   {| ws_url := VStr "wss://x"; ws_client := "c"; sock := Connected;
                      running := true; sent := [] |} ada_streaming _) eq_refl).
  vm_compute. reflexivity.
Defined.
